(** * calm: the linter adapters [run-cargo-check.py] and [run-flake8.py]

    Both scripts start a tool as a child process, read its standard output
    line by line, turn some lines into records and print each record as one
    JSON object.  This development embeds the two scripts and states their
    per-line and whole-run behaviour.

    Conventions of the embedding.
    - The scripts are Python 2 scripts: they run under [#!/usr/bin/env
      python] and apply a [str] pattern to what the pipe delivers, which
      Python 3 refuses.  A string is a sequence of 8-bit characters, [\d]
      is [0-9] and [\s] is one of the six ASCII blanks.
    - A Python value built by [json.loads] is a [json]; [None] is [JNull].
    - An operation that can raise returns a [result]; an exception nobody
      catches ends the script.
    - [print(json.dumps(rec))] is the emission of the record [rec]: the
      standard output of an adapter is the list of records it printed.
      [json.dumps] is taken to accept every record the scripts build (it
      does when the text of the child is text it can encode).
    - [json.loads], the [%s] conversion and [subprocess.Popen] belong to the
      interpreter and the system: they are parameters of the adapters. *)

From Stdlib Require Import String Ascii List ZArith Lia Bool.
From Stdlib Require Import Floats.SpecFloat DecimalString.
Import ListNotations.
Open Scope string_scope.

Set Warnings "-register-all".

(* ===================================================================== *)
(** ** Exceptions and the error monad *)

Inductive exn : Type :=
| ValueError
| AttributeError
| KeyError
| TypeError
| IndexError
| OSError.

Inductive result (A : Type) : Type :=
| Ok (a : A)
| Raise (e : exn).

Arguments Ok {A} a.
Arguments Raise {A} e.

Definition bind {A B : Type} (m : result A) (f : A -> result B) : result B :=
  match m with
  | Ok a => f a
  | Raise e => Raise e
  end.

Notation "x <- m ;; f" := (bind m (fun x => f))
  (at level 61, m at next level, right associativity).

(* ===================================================================== *)
(** ** Python values *)

Inductive json : Type :=
| JNull
| JBool (b : bool)
| JInt (n : Z)
| JFloat (f : spec_float)
| JString (s : string)
| JList (l : list json)
| JObject (d : list (string * json)).

Definition dict : Type := list (string * json).

Fixpoint dict_get (k : string) (d : dict) : option json :=
  match d with
  | [] => None
  | (k', v) :: d' => if String.eqb k k' then Some v else dict_get k d'
  end.

Fixpoint dict_set (k : string) (v : json) (d : dict) : dict :=
  match d with
  | [] => [(k, v)]
  | (k', v') :: d' =>
      if String.eqb k k' then (k, v) :: d' else (k', v') :: dict_set k v d'
  end.

Definition float_is_zero (f : spec_float) : bool :=
  match f with
  | S754_zero _ => true
  | _ => false
  end.

(** [bool(v)]: what [if v], [v and w], [v or w] test. *)
Definition truthy (v : json) : bool :=
  match v with
  | JNull => false
  | JBool b => b
  | JInt n => negb (n =? 0)%Z
  | JFloat f => negb (float_is_zero f)
  | JString s => negb (s =? "")
  | JList l => match l with [] => false | _ :: _ => true end
  | JObject d => match d with [] => false | _ :: _ => true end
  end.

(** [v.get(k)]: only a dict has the method. *)
Definition py_get (v : json) (k : string) : result json :=
  match v with
  | JObject d =>
      match dict_get k d with
      | Some x => Ok x
      | None => Ok JNull
      end
  | _ => Raise AttributeError
  end.

(** [v[k]] with a string key. *)
Definition py_getitem (v : json) (k : string) : result json :=
  match v with
  | JObject d =>
      match dict_get k d with
      | Some x => Ok x
      | None => Raise KeyError
      end
  | _ => Raise TypeError
  end.

(** [v[0]]. *)
Definition py_first (v : json) : result json :=
  match v with
  | JList (x :: _) => Ok x
  | JList [] => Raise IndexError
  | JString (String c _) => Ok (JString (String c ""))
  | JString "" => Raise IndexError
  | JObject _ => Raise KeyError
  | _ => Raise TypeError
  end.

(** [for child in v]: the sequence of values the loop binds. *)
Definition py_iter (v : json) : result (list json) :=
  match v with
  | JList l => Ok l
  | JObject d => Ok (map (fun kv => JString (fst kv)) d)
  | JString s => Ok (map (fun c => JString (String c "")) (list_ascii_of_string s))
  | _ => Raise TypeError
  end.

(** [v is None]. *)
Definition is_None (v : json) : bool :=
  match v with
  | JNull => true
  | _ => false
  end.

(** [s.replace(a, b)] for one-character [a] and [b]. *)
Fixpoint py_replace (a b : ascii) (s : string) : string :=
  match s with
  | EmptyString => EmptyString
  | String c s' => String (if Ascii.eqb c a then b else c) (py_replace a b s')
  end.

Fixpoint all_chars (p : ascii -> bool) (s : string) : bool :=
  match s with
  | EmptyString => true
  | String c s' => p c && all_chars p s'
  end.

(* ===================================================================== *)
(** ** Regular expressions

    The two patterns use literals, single characters of a class, [X+] and
    [X*] on a class.  Each construct is a backtracking matcher in
    continuation-passing style: it consumes a prefix of the subject and hands
    the rest to its continuation; a greedy repetition tries the longest
    prefix first and gives back one character at a time when the continuation
    fails. *)

Section Regex.

Variable A : Type.

(** One character of the class [p]. *)
Definition re_char (p : ascii -> bool) (s : string)
    (k : string -> option A) : option A :=
  match s with
  | String c s' => if p c then k s' else None
  | EmptyString => None
  end.

(** The literal text [l]. *)
Fixpoint re_lit (l : string) (s : string) (k : string -> option A) : option A :=
  match l with
  | EmptyString => k s
  | String c l' => re_char (Ascii.eqb c) s (fun r => re_lit l' r k)
  end.

(** [(X* )] greedy; the continuation receives the captured text. *)
Fixpoint re_star (p : ascii -> bool) (s : string)
    (k : string -> string -> option A) : option A :=
  match s with
  | String c s' =>
      if p c then
        match re_star p s' (fun cap rest => k (String c cap) rest) with
        | Some r => Some r
        | None => k EmptyString s
        end
      else k EmptyString s
  | EmptyString => k EmptyString s
  end.

(** [(X+)] greedy. *)
Definition re_plus (p : ascii -> bool) (s : string)
    (k : string -> string -> option A) : option A :=
  match s with
  | String c s' =>
      if p c then re_star p s' (fun cap rest => k (String c cap) rest)
      else None
  | EmptyString => None
  end.

End Regex.

Arguments re_char {A} p s k.
Arguments re_lit {A} l s k.
Arguments re_star {A} p s k.
Arguments re_plus {A} p s k.

Definition not_char (a : ascii) (c : ascii) : bool := negb (Ascii.eqb c a).

(** [\d] *)
Definition is_digit (c : ascii) : bool :=
  let n := nat_of_ascii c in (48 <=? n)%nat && (n <=? 57)%nat.

(** [\s]: tab, line feed, vertical tab, form feed, carriage return, space. *)
Definition is_space (c : ascii) : bool :=
  let n := nat_of_ascii c in ((9 <=? n)%nat && (n <=? 13)%nat) || (n =? 32)%nat.

(** [\S] *)
Definition not_space (c : ascii) : bool := negb (is_space c).

Definition newline : ascii := ascii_of_nat 10.

(** [.] *)
Definition not_newline (c : ascii) : bool := not_char newline c.

(* ===================================================================== *)
(** ** The child process and the end of a script *)

(** A child started by [subprocess.Popen(cmd, stdout=subprocess.PIPE)]: all
    it writes to its standard output before it ends, and what [c.wait()]
    returns (the exit code, or minus the signal number). *)
Record child : Type := mkChild {
  stdout : string;
  returncode : Z
}.

(** [c.stdout.readline()]: the next line with its line feed, or what is left
    of the output when no line feed follows; the empty string at the end.
    The second component is what stays in the pipe. *)
Fixpoint readline (pipe : string) : string * string :=
  match pipe with
  | EmptyString => (EmptyString, EmptyString)
  | String c pipe' =>
      if Ascii.eqb c newline then (String c EmptyString, pipe')
      else let (l, rest) := readline pipe' in (String c l, rest)
  end.

(** The read loop both scripts share:

      [while 1: line = c.stdout.readline(); if not line: break; body]

    [body] is the rest of a turn, with the record it prints, if any; [out]
    is what has been printed so far.  The answer is [None] only when [fuel]
    turns were not enough to reach the end of the pipe. *)
Section ReadLoop.

Variable R : Type.
Variable body : string -> result (option R).

Fixpoint read_loop (fuel : nat) (pipe : string) (out : list R)
    : option (list R * result unit) :=
  match fuel with
  | O => None
  | S fuel' =>
      let (line, rest) := readline pipe in
      if line =? "" then Some (out, Ok tt)
      else
        match body line with
        | Raise e => Some (out, Raise e)
        | Ok None => read_loop fuel' rest out
        | Ok (Some r) => read_loop fuel' rest (out ++ [r])
        end
  end.

End ReadLoop.

Arguments read_loop {R} body fuel pipe out.

(** How a script ends. *)
Inductive outcome : Type :=
| SysExit (status : Z)
| Uncaught (e : exn)
| EndOfScript.

(** The exit status the parent of the script sees: the low eight bits of
    the argument of [sys.exit], 1 after a traceback, 0 at the end of the
    script. *)
Definition exit_status (o : outcome) : Z :=
  match o with
  | SysExit n => n mod 256
  | Uncaught _ => 1
  | EndOfScript => 0
  end.

(* ===================================================================== *)
(** ** run-cargo-check.py *)

(** [_warn_re = re.compile(r'#\[warn\(([^)]+)\)\]')]; the result of a match
    at the start of [s] is group 1. *)
Definition _warn_re_match (s : string) : option string :=
  re_lit "#[warn(" s (fun s1 =>
  re_plus (not_char ")"%char) s1 (fun g1 s2 =>
  re_lit ")]" s2 (fun _ => Some g1))).

(** [_warn_re.search(s)]: the match at the leftmost position that has one. *)
Fixpoint _warn_re_search (s : string) : option string :=
  match _warn_re_match s with
  | Some g => Some g
  | None =>
      match s with
      | String _ s' => _warn_re_search s'
      | EmptyString => None
      end
  end.

(** [_warn_re.search(v)] on a value: a pattern only searches a string. *)
Definition warn_search (v : json) : result (option string) :=
  match v with
  | JString s => Ok (_warn_re_search s)
  | _ => Raise TypeError
  end.

(** The record passed to [json.dumps], fields in the order of the source. *)
Record record : Type := mkRecord {
  filename : json;
  code : json;
  level : json;
  message : json;
  line : json;
  column : json
}.

(** The [for child in msg['children']] loop: [Some c] when a child matched
    and [code] was assigned [c] before [break], [None] when the loop ran to
    its end. *)
Fixpoint scan_children (children : list json) : result (option string) :=
  match children with
  | [] => Ok None
  | child :: rest =>
      m <- py_getitem child "message" ;;
      found <- warn_search m ;;
      match found with
      | Some g1 => Ok (Some ("warning-" ++ py_replace "_"%char "-"%char g1))
      | None => scan_children rest
      end
  end.

Section Cargo.

(** [json.loads]: the decoded value, or [None] when it raises. *)
Variable json_loads : string -> option json.

(** The [%s] conversion of a value. *)
Variable py_str : json -> string.

(** [subprocess.Popen]: the child the command starts, or the error. *)
Variable popen : list string -> result child.

(** ['%s (%s)' % (a, b)] *)
Definition format_label (a b : json) : string :=
  py_str a ++ " (" ++ py_str b ++ ")".

(** Lines 23-25: the message text, with the label of the first span when it
    has one. *)
Definition cargo_message (msg spans : json) : result json :=
  message <- py_getitem msg "message" ;;
  label <- (s0 <- py_first spans ;; py_get s0 "label") ;;
  if truthy label then
    l <- (s0 <- py_first spans ;; py_getitem s0 "label") ;;
    Ok (JString (format_label message l))
  else Ok message.

(** Lines 26-32: the value of [code] when the record is built. *)
Definition cargo_code (msg : json) : result json :=
  code_obj <- py_get msg "code" ;;
  code <- py_get (if truthy code_obj then code_obj else JObject []) "code" ;;
  if is_None code then
    children <- py_get msg "children" ;;
    if truthy children then
      children <- py_getitem msg "children" ;;
      children <- py_iter children ;;
      found <- scan_children children ;;
      match found with
      | Some c => Ok (JString c)
      | None => Ok code
      end
    else Ok code
  else Ok code.

(** The body of the read loop after [d = json.loads(line)]: the record
    printed, if one is. *)
Definition cargo_value (d : json) : result (option record) :=
  msg <- py_get d "message" ;;
  reason <- py_get d "reason" ;;
  spans <- (if truthy msg then py_get msg "spans" else Ok msg) ;;
  if truthy msg && truthy reason && truthy spans then
    message <- cargo_message msg spans ;;
    code <- cargo_code msg ;;
    file_name <- (s0 <- py_first spans ;; py_getitem s0 "file_name") ;;
    level <- py_getitem msg "level" ;;
    line_start <- (s0 <- py_first spans ;; py_getitem s0 "line_start") ;;
    column_start <- (s0 <- py_first spans ;; py_getitem s0 "column_start") ;;
    Ok (Some {| filename := file_name;
                code := if truthy code then code else JString "generic";
                level := level;
                message := message;
                line := line_start;
                column := column_start |})
  else Ok None.

(** One turn of the loop on a non-empty [line]. *)
Definition cargo_line (line : string) : result (option record) :=
  match json_loads line with
  | None => Raise ValueError
  | Some d => cargo_value d
  end.

Definition cargo_command : list string :=
  ["cargo"; "check"; "--message-format=json"].

(** The script: what it printed and how it ended. *)
Definition cargo_main : option (list record * outcome) :=
  match popen cargo_command with
  | Raise e => Some ([], Uncaught e)
  | Ok c =>
      match read_loop cargo_line (S (String.length (stdout c))) (stdout c) [] with
      | None => None
      | Some (out, Raise e) => Some (out, Uncaught e)
      | Some (out, Ok _) => Some (out, SysExit (returncode c))
      end
  end.

End Cargo.

(* ===================================================================== *)
(** ** run-flake8.py *)

(** [match.groupdict()] *)
Record groups : Type := mkGroups {
  g_filename : string;
  g_line : string;
  g_column : string;
  g_code : string;
  g_message : string
}.

(** [_report_re.match(s)].  The pattern is written in verbose mode, where
    blanks and line ends of the pattern text are dropped; its parts, in order:
    group [filename] [[^:]+], [:], group [line] [\d+], [:], group [column]
    [\d+], [:], [\s], group [code] [\S+], [\s], and group [message], any
    number of characters other than a line feed. *)
Definition _report_re_match (s : string) : option groups :=
  re_plus (not_char ":"%char) s (fun filename s =>
  re_lit ":" s (fun s =>
  re_plus is_digit s (fun line s =>
  re_lit ":" s (fun s =>
  re_plus is_digit s (fun column s =>
  re_lit ":" s (fun s =>
  re_char is_space s (fun s =>
  re_plus not_space s (fun code s =>
  re_char is_space s (fun s =>
  re_star not_newline s (fun message _ =>
  Some (mkGroups filename line column code message))))))))))).

Definition digit_value (c : ascii) : Z := Z.of_nat (nat_of_ascii c) - 48.

Fixpoint decimal (acc : Z) (s : string) : Z :=
  match s with
  | EmptyString => acc
  | String c s' => decimal (10 * acc + digit_value c) s'
  end.

(** [int(s)] on the text of a group: the number a non-empty string of
    decimal digits writes.  A string of another form is not one a [\d+]
    group can hold; it is given [ValueError]. *)
Definition py_int (s : string) : result Z :=
  if negb (s =? "") && all_chars is_digit s then Ok (decimal 0 s)
  else Raise ValueError.

(** The record of the pattern adapter, fields in the order of the source. *)
Record report : Type := mkReport {
  r_filename : string;
  r_line : Z;
  r_column : Z;
  r_code : string;
  r_message : string
}.

(** One turn of the loop on a non-empty [line]. *)
Definition flake8_line (line : string) : result (option report) :=
  match _report_re_match line with
  | Some d =>
      ln <- py_int (g_line d) ;;
      col <- py_int (g_column d) ;;
      Ok (Some (mkReport (g_filename d) ln col (g_code d) (g_message d)))
  | None => Ok None
  end.

(** [os.path.join('.', arg)] *)
Definition path_join_dot (arg : string) : string :=
  match arg with
  | String c _ => if Ascii.eqb c "/"%char then arg else "./" ++ arg
  | EmptyString => "./"
  end.

Section Flake8.

Variable popen : list string -> result child.

(** The command built from [sys.argv]. *)
Definition flake8_command (argv : list string) : list string :=
  "flake8" :: map (fun arg => "--filename=" ++ path_join_dot arg) (tl argv).

(** The script: what it printed and how it ended.  [c.wait()] is the last
    statement and its value is dropped. *)
Definition flake8_main (argv : list string) : option (list report * outcome) :=
  match popen (flake8_command argv) with
  | Raise e => Some ([], Uncaught e)
  | Ok c =>
      match read_loop flake8_line (S (String.length (stdout c))) (stdout c) [] with
      | None => None
      | Some (out, Raise e) => Some (out, Uncaught e)
      | Some (out, Ok _) => Some (out, EndOfScript)
      end
  end.

End Flake8.

(* ===================================================================== *)
(** ** Instances of the parameters for the examples

    [json_loads_lite] decodes JSON text without fractions, exponents,
    [\u] escapes and the non-standard constants; on such text it answers as
    [json.loads] does (a repeated key keeps its last value, a control
    character in a string and text after the value are errors).
    [str_of_scalar] is the [%s] conversion of strings, [None], booleans and
    integers.  The examples decode and format nothing else. *)

Definition quote : ascii := ascii_of_nat 34.
Definition backslash : ascii := ascii_of_nat 92.

(** Example texts are written with ['] where JSON has a double quote. *)
Definition dq (s : string) : string := py_replace "'"%char quote s.

Definition is_json_ws (c : ascii) : bool :=
  let n := nat_of_ascii c in
  (n =? 32)%nat || (n =? 9)%nat || (n =? 10)%nat || (n =? 13)%nat.

Fixpoint skip_ws (s : string) : string :=
  match s with
  | String c s' => if is_json_ws c then skip_ws s' else s
  | EmptyString => EmptyString
  end.

Definition unescape (c : ascii) : option ascii :=
  if Ascii.eqb c quote then Some quote
  else if Ascii.eqb c backslash then Some backslash
  else if Ascii.eqb c "/"%char then Some "/"%char
  else if Ascii.eqb c "b"%char then Some (ascii_of_nat 8)
  else if Ascii.eqb c "f"%char then Some (ascii_of_nat 12)
  else if Ascii.eqb c "n"%char then Some (ascii_of_nat 10)
  else if Ascii.eqb c "r"%char then Some (ascii_of_nat 13)
  else if Ascii.eqb c "t"%char then Some (ascii_of_nat 9)
  else None.

(** The text of a string after its opening quote, and what follows the
    closing quote. *)
Fixpoint scan_string (s : string) : option (string * string) :=
  match s with
  | EmptyString => None
  | String c s' =>
      if Ascii.eqb c quote then Some (EmptyString, s')
      else if Ascii.eqb c backslash then
        match s' with
        | String e s'' =>
            match unescape e, scan_string s'' with
            | Some c', Some (t, r) => Some (String c' t, r)
            | _, _ => None
            end
        | EmptyString => None
        end
      else if (nat_of_ascii c <? 32)%nat then None
      else
        match scan_string s' with
        | Some (t, r) => Some (String c t, r)
        | None => None
        end
  end.

Fixpoint span_digits (s : string) : string * string :=
  match s with
  | String c s' =>
      if is_digit c then let (d, r) := span_digits s' in (String c d, r)
      else (EmptyString, s)
  | EmptyString => (EmptyString, EmptyString)
  end.

(** [0] or a digit other than [0] followed by digits. *)
Definition scan_natural (s : string) : option (Z * string) :=
  match s with
  | String c s' =>
      if Ascii.eqb c "0"%char then Some (0%Z, s')
      else if is_digit c then
        let (d, r) := span_digits s in Some (decimal 0 d, r)
      else None
  | EmptyString => None
  end.

Definition expect (c : ascii) (s : string) : option string :=
  match s with
  | String c' s' => if Ascii.eqb c' c then Some s' else None
  | EmptyString => None
  end.

Fixpoint decode_value (fuel : nat) (s : string) : option (json * string) :=
  match fuel with
  | O => None
  | S n =>
      match skip_ws s with
      | EmptyString => None
      | String c r =>
          if Ascii.eqb c "{"%char then
            match skip_ws r with
            | String c' r' =>
                if Ascii.eqb c' "}"%char then Some (JObject [], r')
                else decode_members n (String c' r') []
            | EmptyString => None
            end
          else if Ascii.eqb c "["%char then
            match skip_ws r with
            | String c' r' =>
                if Ascii.eqb c' "]"%char then Some (JList [], r')
                else decode_elements n (String c' r') []
            | EmptyString => None
            end
          else if Ascii.eqb c quote then
            match scan_string r with
            | Some (t, r') => Some (JString t, r')
            | None => None
            end
          else if Ascii.eqb c "-"%char then
            match scan_natural r with
            | Some (z, r') => Some (JInt (- z), r')
            | None => None
            end
          else if is_digit c then
            match scan_natural (String c r) with
            | Some (z, r') => Some (JInt z, r')
            | None => None
            end
          else if String.prefix "null" (String c r) then
            Some (JNull, substring 4 (String.length r) (String c r))
          else if String.prefix "true" (String c r) then
            Some (JBool true, substring 4 (String.length r) (String c r))
          else if String.prefix "false" (String c r) then
            Some (JBool false, substring 5 (String.length r) (String c r))
          else None
      end
  end

with decode_elements (fuel : nat) (s : string) (acc : list json)
    : option (json * string) :=
  match fuel with
  | O => None
  | S n =>
      match decode_value n s with
      | Some (v, r) =>
          match skip_ws r with
          | String c r' =>
              if Ascii.eqb c ","%char then decode_elements n r' (acc ++ [v])
              else if Ascii.eqb c "]"%char then Some (JList (acc ++ [v]), r')
              else None
          | EmptyString => None
          end
      | None => None
      end
  end

with decode_members (fuel : nat) (s : string) (acc : dict)
    : option (json * string) :=
  match fuel with
  | O => None
  | S n =>
      match expect quote (skip_ws s) with
      | Some r0 =>
          match scan_string r0 with
          | Some (k, r1) =>
              match expect ":"%char (skip_ws r1) with
              | Some r2 =>
                  match decode_value n r2 with
                  | Some (v, r3) =>
                      match skip_ws r3 with
                      | String c r4 =>
                          if Ascii.eqb c ","%char then
                            decode_members n r4 (dict_set k v acc)
                          else if Ascii.eqb c "}"%char then
                            Some (JObject (dict_set k v acc), r4)
                          else None
                      | EmptyString => None
                      end
                  | None => None
                  end
              | None => None
              end
          | None => None
          end
      | None => None
      end
  end.

Definition json_loads_lite (s : string) : option json :=
  match decode_value (S (String.length s)) s with
  | Some (v, r) =>
      match skip_ws r with
      | EmptyString => Some v
      | String _ _ => None
      end
  | None => None
  end.

Definition str_of_scalar (v : json) : string :=
  match v with
  | JString s => s
  | JNull => "None"
  | JBool true => "True"
  | JBool false => "False"
  | JInt n => NilEmpty.string_of_int (Z.to_int n)
  | _ => EmptyString
  end.

(* ===================================================================== *)
(** ** Example inputs *)

Definition nl : string := String newline EmptyString.

(** An unused-variable warning as the tool prints it when the lint has no
    code of its own. *)
Definition line_warning : string :=
  dq "{'reason':'compiler-message','message':{'message':'unused variable: `x`','code':null,'level':'warning','spans':[{'file_name':'src/main.rs','line_start':2,'column_start':9,'label':null}],'children':[{'message':'`#[warn(unused_variables)]` on by default','code':null,'level':'note','spans':[],'children':[]}]}}" ++ nl.

Definition record_warning : record :=
  {| filename := JString "src/main.rs";
     code := JString "warning-unused-variables";
     level := JString "warning";
     message := JString "unused variable: `x`";
     line := JInt 2;
     column := JInt 9 |}.

(** A build event that is no diagnostic. *)
Definition line_artifact : string :=
  dq "{'reason':'compiler-artifact','target':{'name':'calm'},'fresh':true}" ++ nl.

(** An error without a code, with a labelled span and a note. *)
Definition line_mismatch : string :=
  dq "{'reason':'compiler-message','message':{'message':'mismatched types','code':null,'level':'error','spans':[{'file_name':'src/lib.rs','line_start':7,'column_start':5,'label':'expected u32'}],'children':[{'message':'expected type `u32`','code':null,'level':'note','spans':[],'children':[]}]}}" ++ nl.

Definition record_mismatch : record :=
  {| filename := JString "src/lib.rs";
     code := JString "generic";
     level := JString "error";
     message := JString "mismatched types (expected u32)";
     line := JInt 7;
     column := JInt 5 |}.

(** An object with a message, a reason and a span, and nothing else. *)
Definition line_bare : string :=
  dq "{'reason':'compiler-message','message':{'spans':[{'file_name':'src/main.rs','line_start':2,'column_start':9}]}}" ++ nl.

(** A diagnostic whose children name two categories. *)
Definition line_two_markers : string :=
  dq "{'reason':'compiler-message','message':{'message':'unused variable: `x`','code':null,'level':'warning','spans':[{'file_name':'src/main.rs','line_start':2,'column_start':9,'label':null}],'children':[{'message':'`#[warn(dead_code)]` on by default'},{'message':'`#[warn(unused_variables)]` on by default'}]}}" ++ nl.

Definition record_two_markers : record :=
  {| filename := JString "src/main.rs";
     code := JString "warning-dead-code";
     level := JString "warning";
     message := JString "unused variable: `x`";
     line := JInt 2;
     column := JInt 9 |}.

(** A diagnostic with the empty string as its code, and a child that names
    a category. *)
Definition line_empty_code : string :=
  dq "{'reason':'compiler-message','message':{'message':'unused variable: `x`','code':{'code':''},'level':'warning','spans':[{'file_name':'src/main.rs','line_start':2,'column_start':9}],'children':[{'message':'`#[warn(unused_variables)]` on by default'}]}}" ++ nl.

(** The same with children no scan could read. *)
Definition line_empty_code_odd_children : string :=
  dq "{'reason':'compiler-message','message':{'message':'unused variable: `x`','code':{'code':''},'level':'warning','spans':[{'file_name':'src/main.rs','line_start':2,'column_start':9}],'children':7}}" ++ nl.

(** The two message objects as decoded, and the object around the first. *)
Definition msg_empty_code : dict :=
  [("message", JString "unused variable: `x`");
   ("code", JObject [("code", JString "")]);
   ("level", JString "warning");
   ("spans", JList [JObject [("file_name", JString "src/main.rs");
                             ("line_start", JInt 2);
                             ("column_start", JInt 9)]]);
   ("children",
    JList [JObject [("message",
                     JString "`#[warn(unused_variables)]` on by default")]])].

Definition msg_empty_code_odd_children : dict :=
  [("message", JString "unused variable: `x`");
   ("code", JObject [("code", JString "")]);
   ("level", JString "warning");
   ("spans", JList [JObject [("file_name", JString "src/main.rs");
                             ("line_start", JInt 2);
                             ("column_start", JInt 9)]]);
   ("children", JInt 7)].

Definition object_empty_code : dict :=
  [("reason", JString "compiler-message");
   ("message", JObject msg_empty_code)].

Definition record_empty_code : record :=
  {| filename := JString "src/main.rs";
     code := JString "generic";
     level := JString "warning";
     message := JString "unused variable: `x`";
     line := JInt 2;
     column := JInt 9 |}.

Definition line_not_json : string := "warning: unused manifest key" ++ nl.

(** Operating systems for the examples: every command starts the child. *)
Definition popen_always (c : child) (cmd : list string) : result child := Ok c.

(** A diagnostic with a code of its own. *)
Definition line_coded : string :=
  dq "{'reason':'compiler-message','message':{'message':'mismatched types','code':{'code':'E0308','explanation':null},'level':'error','spans':[{'file_name':'src/lib.rs','line_start':7,'column_start':5,'label':null}],'children':[]}}" ++ nl.

Definition record_coded : record :=
  {| filename := JString "src/lib.rs";
     code := JString "E0308";
     level := JString "error";
     message := JString "mismatched types";
     line := JInt 7;
     column := JInt 5 |}.

(* ===================================================================== *)
(** ** Vocabulary of the statements *)

(** [s] does not go on with a character of the class [p]. *)
Definition stops (p : ascii -> bool) (s : string) : Prop :=
  match s with
  | String c _ => p c = false
  | EmptyString => True
  end.

(** The longest prefix of [s] made of characters of the class [p]. *)
Fixpoint take_while (p : ascii -> bool) (s : string) : string :=
  match s with
  | String c s' => if p c then String c (take_while p s') else EmptyString
  | EmptyString => EmptyString
  end.

(** A non-empty string of characters of the class [p]. *)
Definition class_plus (p : ascii -> bool) (s : string) : bool :=
  negb (s =? "") && all_chars p s.

(** A line of the form [filename:line:column: code message], with the text
    of each part in [g]: [w1] and [w2] are the two blanks, [rest] is what
    follows the second one, and the message is [rest] up to its line feed. *)
Definition report_shape (line : string) (g : groups) : Prop :=
  exists w1 w2 rest,
    line = g_filename g ++ ":" ++ g_line g ++ ":" ++ g_column g ++ ":"
           ++ String w1 (g_code g ++ String w2 rest)
    /\ class_plus (not_char ":"%char) (g_filename g) = true
    /\ class_plus is_digit (g_line g) = true
    /\ class_plus is_digit (g_column g) = true
    /\ is_space w1 = true
    /\ class_plus not_space (g_code g) = true
    /\ is_space w2 = true
    /\ g_message g = take_while not_newline rest.

(** The text [#[warn(cat)]]. *)
Definition marker (cat : string) : string := "#[warn(" ++ cat ++ ")]".

(** The lines [readline] cuts a pipe into. *)
Fixpoint lines_of (pipe : string) : list string :=
  match pipe with
  | EmptyString => []
  | String c pipe' =>
      if Ascii.eqb c newline then String c EmptyString :: lines_of pipe'
      else
        match lines_of pipe' with
        | [] => [String c EmptyString]
        | l :: ls => String c l :: ls
        end
  end.

(** What one turn of a loop printed. *)
Definition emitted {R : Type} (res : result (option R)) : list R :=
  match res with
  | Ok (Some r) => [r]
  | _ => []
  end.

(** The loop told on the lines: stop at the first one whose turn raises. *)
Fixpoint run_lines {R : Type} (body : string -> result (option R))
    (ls : list string) (out : list R) : list R * result unit :=
  match ls with
  | [] => (out, Ok tt)
  | l :: ls' =>
      match body l with
      | Raise e => (out, Raise e)
      | Ok None => run_lines body ls' out
      | Ok (Some r) => run_lines body ls' (out ++ [r])
      end
  end.

(** The records of all the lines of [ls], in the order of the lines. *)
Definition records_of {R : Type} (body : string -> result (option R))
    (ls : list string) : list R :=
  flat_map (fun l => emitted (body l)) ls.


(** The member [k] of a decoded object; nothing has a member but an object. *)
Definition field (k : string) (v : json) : option json :=
  match v with
  | JObject d => dict_get k d
  | _ => None
  end.

Definition absent (o : option json) : Prop := o = None \/ o = Some JNull.

(** The message has no code: no [code] member (or [null]), or a code object
    with no [code] member (or [null]). *)
Definition code_absent (msg : json) : Prop :=
  absent (field "code" msg)
  \/ exists code_obj,
       field "code" msg = Some (JObject code_obj)
       /\ absent (dict_get "code" code_obj).

(** No message of a child has a text the warning pattern finds a match in. *)
Definition no_child_matches (msg : json) : Prop :=
  forall children child s,
    field "children" msg = Some (JList children) ->
    In child children ->
    field "message" child = Some (JString s) ->
    _warn_re_search s = None.

(** A child the scan can read: an object whose [message] is a string. *)
Definition child_readable (child : json) : Prop :=
  exists s, field "message" child = Some (JString s).

(** The [code] member can be read: absent, a false value, or an object. *)
Definition code_readable (msg : dict) : Prop :=
  forall v, dict_get "code" msg = Some v ->
    truthy v = false \/ exists code_obj, v = JObject code_obj.

(** The [children] member can be scanned: absent, a false value, or a list
    of readable children. *)
Definition children_readable (msg : dict) : Prop :=
  forall v, dict_get "children" msg = Some v ->
    truthy v = false \/ exists l, v = JList l /\ Forall child_readable l.

(** Two message objects with the same members, [children] apart. *)
Definition same_but_children (msg msg' : dict) : Prop :=
  forall k, k <> "children" -> dict_get k msg' = dict_get k msg.

(** A line as [readline] hands it out: text without a line feed, closed by
    a line feed, or not empty when the output ends without one. *)
Definition line_shape (l : string) : Prop :=
  exists text,
    all_chars not_newline text = true
    /\ (l = text ++ nl \/ (l = text /\ text <> "")).

(** A path that is absolute or starts at the current directory. *)
Definition anchored (path : string) : Prop :=
  String.prefix "/" path = true \/ String.prefix "./" path = true.

(* ===================================================================== *)
(** ** Strings *)

Lemma append_nil_r (s : string) : s ++ "" = s.
Proof. induction s as [|c s IH]; simpl; [reflexivity | now rewrite IH]. Qed.

Lemma append_assoc (a b c : string) : (a ++ b) ++ c = a ++ b ++ c.
Proof. induction a as [|x a IH]; simpl; [reflexivity | now rewrite IH]. Qed.

Lemma eqb_empty (s : string) : (s =? "") = true <-> s = "".
Proof. destruct s; simpl; split; intros H; congruence. Qed.

Lemma class_plus_cons (p : ascii -> bool) (s : string) :
  class_plus p s = true ->
  exists c s', s = String c s' /\ p c = true /\ all_chars p s' = true.
Proof.
  unfold class_plus. destruct s as [|c s']; simpl; [discriminate|].
  intros H. apply andb_true_iff in H. destruct H as [Hc Hs].
  exists c, s'. auto.
Qed.

Lemma class_plus_intro (p : ascii -> bool) (c : ascii) (s : string) :
  p c = true -> all_chars p s = true -> class_plus p (String c s) = true.
Proof. intros Hc Hs. unfold class_plus. simpl. now rewrite Hc, Hs. Qed.

(* ===================================================================== *)
(** ** The matchers *)

Section RegexFacts.

Context {A : Type}.

Lemma re_lit_app (l r : string) (k : string -> option A) :
  re_lit l (l ++ r) k = k r.
Proof.
  induction l as [|c l IH]; simpl; [reflexivity|].
  now rewrite Ascii.eqb_refl.
Qed.

Lemma re_lit_first_differs (c0 c : ascii) (l s : string)
    (k : string -> option A) :
  Ascii.eqb c c0 = false -> re_lit (String c0 l) (String c s) k = None.
Proof.
  intros H. cbn [re_lit re_char]. now rewrite Ascii.eqb_sym, H.
Qed.

Lemma re_lit_inv (l s : string) (k : string -> option A) (x : A) :
  re_lit l s k = Some x -> exists r, s = l ++ r /\ k r = Some x.
Proof.
  revert s. induction l as [|c l IH]; intros s H; simpl in H.
  - exists s. auto.
  - destruct s as [|c' s]; simpl in H; [discriminate|].
    destruct (Ascii.eqb c c') eqn:E; [|discriminate].
    apply Ascii.eqb_eq in E. subst c'.
    destruct (IH _ H) as [r [-> Hk]]. exists r. auto.
Qed.

Lemma re_star_inv (p : ascii -> bool) (s : string)
    (k : string -> string -> option A) (x : A) :
  re_star p s k = Some x ->
  exists cap rest, s = cap ++ rest /\ all_chars p cap = true /\ k cap rest = Some x.
Proof.
  revert k. induction s as [|c s IH]; intros k H; simpl in H.
  - exists "", "". auto.
  - destruct (p c) eqn:Hc.
    + destruct (re_star p s (fun cap rest => k (String c cap) rest)) eqn:E.
      * injection H as ->.
        destruct (IH _ E) as [cap [rest [-> [Hall Hk]]]].
        exists (String c cap), rest. simpl. rewrite Hc. auto.
      * exists "", (String c s). auto.
    + exists "", (String c s). auto.
Qed.

(** A greedy repetition settles on the longest prefix when the continuation
    accepts it. *)
Lemma re_star_greedy (p : ascii -> bool) (cap rest : string)
    (k : string -> string -> option A) (x : A) :
  all_chars p cap = true -> stops p rest -> k cap rest = Some x ->
  re_star p (cap ++ rest) k = Some x.
Proof.
  revert k. induction cap as [|c cap IH]; intros k Hall Hstop Hk; simpl.
  - destruct rest as [|c r]; simpl; [exact Hk|].
    simpl in Hstop. now rewrite Hstop.
  - simpl in Hall. apply andb_true_iff in Hall. destruct Hall as [Hc Hall].
    rewrite Hc.
    now rewrite (IH (fun cap0 rest0 => k (String c cap0) rest0) Hall Hstop Hk).
Qed.

Lemma re_plus_inv (p : ascii -> bool) (s : string)
    (k : string -> string -> option A) (x : A) :
  re_plus p s k = Some x ->
  exists cap rest, s = cap ++ rest /\ class_plus p cap = true /\ k cap rest = Some x.
Proof.
  destruct s as [|c s]; simpl; [discriminate|].
  destruct (p c) eqn:Hc; [|discriminate].
  intros H. apply re_star_inv in H.
  destruct H as [cap [rest [-> [Hall Hk]]]].
  exists (String c cap), rest. split; [reflexivity|].
  split; [now apply class_plus_intro | exact Hk].
Qed.

Lemma re_plus_greedy (p : ascii -> bool) (cap rest : string)
    (k : string -> string -> option A) (x : A) :
  class_plus p cap = true -> stops p rest -> k cap rest = Some x ->
  re_plus p (cap ++ rest) k = Some x.
Proof.
  intros Hcap Hstop Hk.
  destruct (class_plus_cons _ _ Hcap) as [c [cap' [-> [Hc Hall]]]].
  simpl. rewrite Hc.
  now apply (re_star_greedy p cap' rest (fun cap0 rest0 => k (String c cap0) rest0)).
Qed.

(** With a continuation that accepts everything, the repetition captures
    the longest prefix. *)
Lemma re_star_total (p : ascii -> bool) (s : string) (F : string -> A) :
  re_star p s (fun cap _ => Some (F cap)) = Some (F (take_while p s)).
Proof.
  revert F. induction s as [|c s IH]; intros F; simpl; [reflexivity|].
  destruct (p c); [|reflexivity].
  now rewrite (IH (fun cap => F (String c cap))).
Qed.

End RegexFacts.

(* ===================================================================== *)
(** ** The report pattern *)

Lemma colon_stops_digits (s : string) : stops is_digit (":" ++ s).
Proof. reflexivity. Qed.

Lemma space_stops_not_space (w : ascii) (s : string) :
  is_space w = true -> stops not_space (String w s).
Proof. intros H. simpl. unfold not_space. now rewrite H. Qed.

(** A line of the shape is matched, with the parts of the shape as groups. *)
Lemma report_match_complete (line : string) (g : groups) :
  report_shape line g -> _report_re_match line = Some g.
Proof.
  intros [w1 [w2 [rest [-> [Hf [Hl [Hc [Hw1 [Hcode [Hw2 Hm]]]]]]]]]].
  unfold _report_re_match.
  apply re_plus_greedy; [exact Hf | reflexivity |].
  rewrite re_lit_app.
  apply re_plus_greedy; [exact Hl | apply colon_stops_digits |].
  rewrite re_lit_app.
  apply re_plus_greedy; [exact Hc | apply colon_stops_digits |].
  rewrite re_lit_app.
  simpl re_char. rewrite Hw1.
  apply re_plus_greedy; [exact Hcode | now apply space_stops_not_space |].
  simpl re_char. rewrite Hw2.
  rewrite (re_star_total not_newline rest
             (fun m => mkGroups (g_filename g) (g_line g) (g_column g) (g_code g) m)).
  rewrite <- Hm. now destruct g.
Qed.

(** What is matched has the shape. *)
Lemma report_match_sound (line : string) (g : groups) :
  _report_re_match line = Some g -> report_shape line g.
Proof.
  unfold _report_re_match. intros H.
  apply re_plus_inv in H. destruct H as [f [r1 [-> [Hf H]]]].
  apply re_lit_inv in H. destruct H as [r2 [-> H]].
  apply re_plus_inv in H. destruct H as [l [r3 [-> [Hl H]]]].
  apply re_lit_inv in H. destruct H as [r4 [-> H]].
  apply re_plus_inv in H. destruct H as [c [r5 [-> [Hc H]]]].
  apply re_lit_inv in H. destruct H as [r6 [-> H]].
  destruct r6 as [|w1 r6]; simpl in H; [discriminate|].
  destruct (is_space w1) eqn:Hw1; [|discriminate].
  apply re_plus_inv in H. destruct H as [code [r7 [-> [Hcode H]]]].
  destruct r7 as [|w2 r7]; simpl in H; [discriminate|].
  destruct (is_space w2) eqn:Hw2; [|discriminate].
  rewrite (re_star_total not_newline r7
             (fun m => mkGroups f l c code m)) in H.
  injection H as <-. simpl.
  exists w1, w2, r7. simpl. repeat split; assumption.
Qed.

Lemma report_match_iff (line : string) (g : groups) :
  _report_re_match line = Some g <-> report_shape line g.
Proof. split; [apply report_match_sound | apply report_match_complete]. Qed.

(** [int] does not raise on the text of a [\d+] group. *)
Lemma py_int_digits (s : string) :
  class_plus is_digit s = true -> py_int s = Ok (decimal 0 s).
Proof. unfold py_int, class_plus. now intros ->. Qed.

Lemma flake8_line_match (line : string) (g : groups) :
  _report_re_match line = Some g ->
  flake8_line line =
    Ok (Some (mkReport (g_filename g) (decimal 0 (g_line g))
                (decimal 0 (g_column g)) (g_code g) (g_message g))).
Proof.
  intros H. unfold flake8_line. rewrite H.
  apply report_match_sound in H.
  destruct H as [w1 [w2 [rest [_ [_ [Hl [Hc _]]]]]]].
  now rewrite (py_int_digits _ Hl), (py_int_digits _ Hc).
Qed.

(** A turn of the pattern adapter never raises. *)
Lemma flake8_line_total (line : string) : exists o, flake8_line line = Ok o.
Proof.
  destruct (_report_re_match line) as [g|] eqn:E.
  - rewrite (flake8_line_match _ _ E). eexists. reflexivity.
  - unfold flake8_line. rewrite E. eexists. reflexivity.
Qed.

(* ===================================================================== *)
(** ** The warning pattern *)

Lemma warn_search_unfold (s : string) :
  _warn_re_search s =
    match _warn_re_match s with
    | Some g => Some g
    | None =>
        match s with
        | String _ s' => _warn_re_search s'
        | EmptyString => None
        end
    end.
Proof. destruct s; reflexivity. Qed.

Lemma marker_app (cat rest : string) :
  marker cat ++ rest = "#[warn(" ++ cat ++ ")]" ++ rest.
Proof. unfold marker. now rewrite !append_assoc. Qed.

(** The pattern matches at the start of a text that starts with a marker. *)
Lemma warn_match_complete (cat rest : string) :
  class_plus (not_char ")"%char) cat = true ->
  _warn_re_match (marker cat ++ rest) = Some cat.
Proof.
  intros H. rewrite marker_app. unfold _warn_re_match.
  rewrite re_lit_app.
  apply re_plus_greedy; [exact H | reflexivity |].
  now rewrite re_lit_app.
Qed.

Lemma warn_match_sound (s cat : string) :
  _warn_re_match s = Some cat ->
  exists rest, s = marker cat ++ rest /\ class_plus (not_char ")"%char) cat = true.
Proof.
  unfold _warn_re_match. intros H.
  apply re_lit_inv in H. destruct H as [r1 [-> H]].
  apply re_plus_inv in H. destruct H as [g [r2 [-> [Hg H]]]].
  apply re_lit_inv in H. destruct H as [r3 [-> H]].
  injection H as ->.
  exists r3. now rewrite marker_app.
Qed.

(** What a search finds is the category of a marker of the text. *)
Lemma warn_search_sound (s cat : string) :
  _warn_re_search s = Some cat ->
  exists pre rest,
    s = pre ++ marker cat ++ rest /\ class_plus (not_char ")"%char) cat = true.
Proof.
  induction s as [|c s IH]; rewrite warn_search_unfold;
    destruct (_warn_re_match _) as [g|] eqn:E; intros H; try discriminate.
  - injection H as ->. apply warn_match_sound in E.
    destruct E as [rest [Hs Hc]]. exists "", rest. auto.
  - destruct (IH H) as [pre [rest [-> Hc]]].
    exists (String c pre), rest. auto.
Qed.

(** A text with a marker has a match. *)
Lemma warn_search_complete (pre cat rest : string) :
  class_plus (not_char ")"%char) cat = true ->
  _warn_re_search (pre ++ marker cat ++ rest) <> None.
Proof.
  intros Hc. induction pre as [|c pre IH].
  - change ("" ++ marker cat ++ rest) with (marker cat ++ rest).
    rewrite warn_search_unfold, (warn_match_complete _ _ Hc).
    discriminate.
  - rewrite warn_search_unfold.
    destruct (_warn_re_match _); [discriminate | exact IH].
Qed.

(** X6: the search fails exactly on the texts with no marker. *)
Lemma warn_search_none_iff (s : string) :
  _warn_re_search s = None <->
  (forall pre cat rest,
     class_plus (not_char ")"%char) cat = true ->
     s <> pre ++ marker cat ++ rest).
Proof.
  split.
  - intros H pre cat rest Hc ->. now apply (warn_search_complete pre cat rest Hc).
  - intros H. destruct (_warn_re_search s) as [cat|] eqn:E; [|reflexivity].
    apply warn_search_sound in E. destruct E as [pre [rest [Hs Hc]]].
    now destruct (H pre cat rest Hc).
Qed.

(** The leftmost marker is the one found, here when no [#] comes before. *)
Lemma warn_search_first (pre cat rest : string) :
  all_chars (not_char "#"%char) pre = true ->
  class_plus (not_char ")"%char) cat = true ->
  _warn_re_search (pre ++ marker cat ++ rest) = Some cat.
Proof.
  intros Hpre Hc. induction pre as [|c pre IH].
  - change ("" ++ marker cat ++ rest) with (marker cat ++ rest).
    now rewrite warn_search_unfold, (warn_match_complete _ _ Hc).
  - simpl in Hpre. apply andb_true_iff in Hpre. destruct Hpre as [Hx Hpre].
    rewrite warn_search_unfold.
    replace (_warn_re_match (String c pre ++ marker cat ++ rest)) with (@None string).
    + now apply IH.
    + unfold _warn_re_match. symmetry. apply re_lit_first_differs.
      now apply negb_true_iff.
Qed.

(* ===================================================================== *)
(** ** Reading values *)

Lemma py_getitem_ok (v : json) (k : string) (x : json) :
  py_getitem v k = Ok x <-> field k v = Some x.
Proof.
  destruct v; simpl; try (split; discriminate).
  destruct (dict_get k d); split; intros H; congruence.
Qed.

Lemma py_get_object (d : dict) (k : string) :
  py_get (JObject d) k =
    Ok (match dict_get k d with Some x => x | None => JNull end).
Proof. simpl. now destruct (dict_get k d). Qed.

Lemma py_get_ok (v : json) (k : string) (x : json) :
  py_get v k = Ok x ->
  exists d, v = JObject d
            /\ x = match dict_get k d with Some y => y | None => JNull end.
Proof.
  destruct v; simpl; try discriminate.
  intros H. exists d. destruct (dict_get k d); now injection H as <-.
Qed.

Lemma dict_get_set_same (k : string) (v : json) (d : dict) :
  dict_get k (dict_set k v d) = Some v.
Proof.
  induction d as [|[k' v'] d IH]; simpl.
  - now rewrite String.eqb_refl.
  - destruct (String.eqb k k') eqn:E; simpl.
    + now rewrite String.eqb_refl.
    + now rewrite E.
Qed.

Lemma dict_get_set_other (k k0 : string) (v : json) (d : dict) :
  k0 <> k -> dict_get k0 (dict_set k v d) = dict_get k0 d.
Proof.
  intros Hk. induction d as [|[k' v'] d IH]; simpl.
  - apply String.eqb_neq in Hk. now rewrite Hk.
  - destruct (String.eqb k k') eqn:E; simpl.
    + apply String.eqb_eq in E. subst k'.
      apply String.eqb_neq in Hk. now rewrite Hk.
    + now rewrite IH.
Qed.

(* ===================================================================== *)
(** ** The scan of the children *)

Ltac bind_ok H :=
  match type of H with
  | bind ?m _ = Ok _ =>
      let E := fresh "E" in
      destruct m eqn:E; simpl in H; [|discriminate H]
  end.

(** When the scan ends without an error, the children before the first
    match have texts without a match, and the first match gives the code. *)
Lemma scan_children_first (pre post : list json) (child : json)
    (s cat : string) (found : option string) :
  scan_children (pre ++ child :: post) = Ok found ->
  (forall c t, In c pre -> field "message" c = Some (JString t) ->
               _warn_re_search t = None) ->
  field "message" child = Some (JString s) ->
  _warn_re_search s = Some cat ->
  found = Some ("warning-" ++ py_replace "_"%char "-"%char cat).
Proof.
  intros Hscan Hpre Hchild Hcat.
  induction pre as [|c pre IH]; simpl in Hscan.
  - apply py_getitem_ok in Hchild. rewrite Hchild in Hscan. simpl in Hscan.
    rewrite Hcat in Hscan. now injection Hscan as <-.
  - bind_ok Hscan. bind_ok Hscan.
    apply py_getitem_ok in E.
    destruct a as [| | | |t| |]; simpl in E0; try discriminate.
    injection E0 as <-.
    rewrite (Hpre c t (or_introl eq_refl) E) in Hscan.
    apply IH; [exact Hscan|].
    intros c' t' Hin. apply Hpre. now right.
Qed.

Lemma scan_children_none (children : list json) (found : option string) :
  scan_children children = Ok found ->
  (forall c t, In c children -> field "message" c = Some (JString t) ->
               _warn_re_search t = None) ->
  found = None.
Proof.
  intros Hscan Hall.
  induction children as [|c cs IH]; simpl in Hscan.
  - now injection Hscan as <-.
  - bind_ok Hscan. bind_ok Hscan.
    apply py_getitem_ok in E.
    destruct a as [| | | |t| |]; simpl in E0; try discriminate.
    injection E0 as <-.
    rewrite (Hall c t (or_introl eq_refl) E) in Hscan.
    apply IH; [exact Hscan|].
    intros c' t' Hin. apply Hall. now right.
Qed.

(** The scan of readable children ends without an error. *)
Lemma scan_children_readable (children : list json) :
  Forall child_readable children ->
  exists found, scan_children children = Ok found.
Proof.
  induction 1 as [|c cs [s Hs] _ [found IH]]; simpl.
  - now eexists.
  - apply py_getitem_ok in Hs. rewrite Hs. simpl.
    destruct (_warn_re_search s); [now eexists | exists found; exact IH].
Qed.

(* ===================================================================== *)
(** ** One turn of the structural adapter *)

Lemma truthy_not_null (o : option json) :
  truthy (match o with Some x => x | None => JNull end) = true ->
  exists x, o = Some x /\ truthy x = true.
Proof. destruct o as [x|]; simpl; [eauto | discriminate]. Qed.

Lemma py_get_truthy (v : json) (k : string) (x : json) :
  py_get v k = Ok x -> truthy x = true -> field k v = Some x.
Proof.
  intros H Hx. apply py_get_ok in H. destruct H as [d [-> ->]].
  apply truthy_not_null in Hx. destruct Hx as [y [E _]].
  simpl. now rewrite E.
Qed.

(** Only the first element of a non-empty list can give a member. *)
Lemma py_first_getitem_ok (spans : json) (k : string) (x : json) :
  (s0 <- py_first spans ;; py_getitem s0 k) = Ok x ->
  exists s0 rest, spans = JList (s0 :: rest) /\ field k s0 = Some x.
Proof.
  destruct spans as [| | | |s|l|d]; simpl; try discriminate.
  - destruct s; simpl; discriminate.
  - destruct l as [|s0 rest]; simpl; [discriminate|].
    intros H. apply py_getitem_ok in H. eauto.
Qed.

Section CargoFacts.

Variable json_loads : string -> option json.
Variable py_str : json -> string.

(** What stands behind a printed record. *)
Lemma cargo_value_emit_inv (d : json) (r : record) :
  cargo_value py_str d = Ok (Some r) ->
  exists msg reason span0 rest c,
    field "message" d = Some msg
    /\ field "reason" d = Some reason /\ truthy reason = true
    /\ field "spans" msg = Some (JList (span0 :: rest))
    /\ cargo_code msg = Ok c
    /\ code r = (if truthy c then c else JString "generic")
    /\ field "file_name" span0 = Some (filename r)
    /\ field "level" msg = Some (level r)
    /\ field "line_start" span0 = Some (line r)
    /\ field "column_start" span0 = Some (column r).
Proof.
  unfold cargo_value. intros H.
  destruct (py_get d "message") as [msg|] eqn:Emsg; simpl in H; [|discriminate].
  destruct (py_get d "reason") as [reason|] eqn:Ereason; simpl in H; [|discriminate].
  destruct (truthy msg) eqn:Tmsg.
  2:{ simpl in H. discriminate. }
  destruct (py_get msg "spans") as [spans|] eqn:Espans; simpl in H; [|discriminate].
  destruct (truthy reason) eqn:Treason; simpl in H; [|discriminate].
  destruct (truthy spans) eqn:Tspans; simpl in H; [|discriminate].
  destruct (cargo_message py_str msg spans) as [text|]; simpl in H; [|discriminate].
  destruct (cargo_code msg) as [c|] eqn:Ecode; simpl in H; [|discriminate].
  destruct (s0 <- py_first spans ;; py_getitem s0 "file_name")
    as [fn|] eqn:Efn; simpl in H; [|discriminate].
  destruct (py_getitem msg "level") as [lv|] eqn:Elv; simpl in H; [|discriminate].
  destruct (s0 <- py_first spans ;; py_getitem s0 "line_start")
    as [ls|] eqn:Els; simpl in H; [|discriminate].
  destruct (s0 <- py_first spans ;; py_getitem s0 "column_start")
    as [cs|] eqn:Ecs; simpl in H; [|discriminate].
  injection H as <-. simpl.
  apply py_first_getitem_ok in Efn. destruct Efn as [span0 [rest [-> Hfn]]].
  apply py_first_getitem_ok in Els. destruct Els as [s1 [r1 [E1 Hls]]].
  apply py_first_getitem_ok in Ecs. destruct Ecs as [s2 [r2 [E2 Hcs]]].
  injection E1 as <- <-. injection E2 as <- <-.
  apply py_getitem_ok in Elv.
  pose proof (py_get_truthy _ _ _ Emsg Tmsg) as Hmsg.
  pose proof (py_get_truthy _ _ _ Ereason Treason) as Hreason.
  pose proof (py_get_truthy _ _ _ Espans Tspans) as Hspans.
  exists msg, reason, span0, rest, c.
  repeat split; assumption.
Qed.

(** The message text can be built when the message object has one and the
    first span is an object. *)
Lemma cargo_message_ok (msg span0 : dict) (rest : list json) (m : json) :
  dict_get "message" msg = Some m ->
  exists text,
    cargo_message py_str (JObject msg) (JList (JObject span0 :: rest)) = Ok text.
Proof.
  intros Hm. unfold cargo_message. simpl. rewrite Hm. simpl.
  destruct (dict_get "label" span0) as [l|]; simpl.
  - destruct (truthy l); simpl; eexists; reflexivity.
  - eexists; reflexivity.
Qed.

(** The code can be computed when the [code] and [children] members can be
    read. *)
Lemma cargo_code_ok (msg : dict) :
  code_readable msg -> children_readable msg ->
  exists c, cargo_code (JObject msg) = Ok c.
Proof.
  intros Hcode Hch. unfold cargo_code.
  rewrite py_get_object. cbn [bind].
  assert (Hobj : exists code_obj,
             (if truthy (match dict_get "code" msg with
                         | Some x => x | None => JNull end)
              then match dict_get "code" msg with
                   | Some x => x | None => JNull end
              else JObject []) = JObject code_obj).
  { destruct (dict_get "code" msg) as [v|] eqn:E; simpl.
    - destruct (Hcode v E) as [Hf|[co ->]].
      + rewrite Hf. now eexists.
      + destruct (truthy (JObject co)); now eexists.
    - now eexists. }
  destruct Hobj as [code_obj ->].
  rewrite py_get_object. cbn [bind].
  destruct (is_None _); [|now eexists].
  rewrite py_get_object. cbn [bind].
  destruct (dict_get "children" msg) as [v|] eqn:E.
  - destruct (Hch v E) as [Hf|[l [-> Hl]]].
    + rewrite Hf. now eexists.
    + destruct l as [|c l]; [now eexists|].
      cbn [truthy]. unfold py_getitem. rewrite E. cbn [bind py_iter].
      destruct (scan_children_readable _ Hl) as [found ->]. cbn [bind].
      destruct found; now eexists.
  - now eexists.
Qed.

(** With a code value other than [None] the children are not read. *)
Lemma cargo_code_given (msg code_obj : dict) (v : json) :
  dict_get "code" msg = Some (JObject code_obj) ->
  dict_get "code" code_obj = Some v ->
  v <> JNull ->
  cargo_code (JObject msg) = Ok v.
Proof.
  intros Hm Hc Hv. unfold cargo_code.
  rewrite py_get_object, Hm. cbn [bind].
  destruct code_obj as [|kv code_obj]; [discriminate|].
  cbn [truthy]. rewrite py_get_object, Hc. cbn [bind].
  destruct v; simpl; try reflexivity. now destruct Hv.
Qed.

(** Without a code the value is what the scan of the children leaves. *)
Lemma cargo_code_absent (msg c : json) :
  code_absent msg -> cargo_code msg = Ok c ->
  exists children,
    py_get msg "children" = Ok children
    /\ if truthy children then
         exists l found,
           field "children" msg = Some children
           /\ py_iter children = Ok l
           /\ scan_children l = Ok found
           /\ c = match found with Some w => JString w | None => JNull end
       else c = JNull.
Proof.
  intros Habs H. unfold cargo_code in H.
  destruct (py_get msg "code") as [code_obj|] eqn:E; simpl in H; [|discriminate].
  assert (Hnone : py_get (if truthy code_obj then code_obj else JObject []) "code"
                  = Ok JNull).
  { apply py_get_ok in E. destruct E as [m [-> ->]].
    destruct Habs as [[Ha|Ha]|[co [Ha Hb]]]; simpl field in Ha; rewrite Ha.
    - reflexivity.
    - reflexivity.
    - destruct co as [|p co]; [reflexivity|].
      cbn [truthy]. rewrite py_get_object.
      destruct Hb as [-> | ->]; reflexivity. }
  rewrite Hnone in H. simpl in H.
  destruct (py_get msg "children") as [children|] eqn:Ech; simpl in H; [|discriminate].
  exists children. split; [reflexivity|].
  destruct (truthy children) eqn:T.
  - destruct (py_getitem msg "children") as [ch|] eqn:Egi; simpl in H; [|discriminate].
    apply py_getitem_ok in Egi.
    pose proof (py_get_truthy _ _ _ Ech T) as Hf.
    rewrite Hf in Egi. injection Egi as <-.
    destruct (py_iter children) as [l|]; simpl in H; [|discriminate].
    destruct (scan_children l) as [found|] eqn:Escan; simpl in H; [|discriminate].
    exists l, found. repeat split; try assumption.
    destruct found; now injection H as <-.
  - now injection H as <-.
Qed.

End CargoFacts.

Lemma same_but_children_get (msg msg' : dict) (k : string) :
  same_but_children msg msg' -> k <> "children" ->
  py_get (JObject msg') k = py_get (JObject msg) k
  /\ py_getitem (JObject msg') k = py_getitem (JObject msg) k.
Proof. intros H Hk. simpl. now rewrite (H k Hk). Qed.

Lemma dict_get_nonempty (k : string) (d : dict) (x : json) :
  dict_get k d = Some x -> truthy (JObject d) = true.
Proof. destruct d; simpl; [discriminate | reflexivity]. Qed.

Section CargoLine.

Variable json_loads : string -> option json.
Variable py_str : json -> string.

(** C1 (amended): for every line that decodes to an object with a message
    object, a true reason and, in the message, a non-empty spans list, and
    that moreover carries every member the adapter reads (the text and the
    level of the message, the file name, start line and start column of the
    first span, which is an object; a code that is absent, false or an
    object; children that are absent, false or a list of objects with a
    string message), the adapter prints exactly one record, without an
    error, and its filename, line and column are the file name, start line
    and start column of the first span. *)
Theorem cargo_line_emits_first_span (ln : string) (d msg span0 : dict)
    (rest : list json) (reason m lv fn ls cs : json) :
  json_loads ln = Some (JObject d) ->
  dict_get "message" d = Some (JObject msg) ->
  dict_get "reason" d = Some reason ->
  truthy reason = true ->
  dict_get "spans" msg = Some (JList (JObject span0 :: rest)) ->
  dict_get "message" msg = Some m ->
  dict_get "level" msg = Some lv ->
  dict_get "file_name" span0 = Some fn ->
  dict_get "line_start" span0 = Some ls ->
  dict_get "column_start" span0 = Some cs ->
  code_readable msg ->
  children_readable msg ->
  exists r,
    cargo_line json_loads py_str ln = Ok (Some r)
    /\ emitted (cargo_line json_loads py_str ln) = [r]
    /\ filename r = fn /\ line r = ls /\ column r = cs.
Proof.
  intros Hloads Hmsg Hreason Treason Hspans Hm Hlv Hfn Hls Hcs Hcode Hch.
  destruct (cargo_message_ok py_str msg span0 rest m Hm) as [text Htext].
  destruct (cargo_code_ok msg Hcode Hch) as [c Hc].
  unfold cargo_line. rewrite Hloads. unfold cargo_value.
  rewrite !py_get_object, Hmsg, Hreason. cbn [bind].
  rewrite (dict_get_nonempty _ _ _ Hm).
  rewrite py_get_object, Hspans. cbn [bind].
  rewrite Treason. cbn [truthy andb].
  rewrite Htext, Hc. cbn [bind py_first].
  unfold py_getitem. rewrite Hfn, Hlv, Hls, Hcs. cbn [bind].
  eexists. repeat split.
Qed.

(** C5: a line that decodes but has no message member, or no true reason
    member, or whose message has no non-empty spans list (none, an empty
    one, or a member of another kind) gets no record. *)
Theorem cargo_line_not_diagnostic (ln : string) (v : json) :
  json_loads ln = Some v ->
  field "message" v = None
  \/ (forall reason, field "reason" v = Some reason -> truthy reason = false)
  \/ (forall msg x xs,
        field "message" v = Some msg ->
        field "spans" msg <> Some (JList (x :: xs))) ->
  emitted (cargo_line json_loads py_str ln) = [].
Proof.
  intros Hloads Hlack.
  destruct (cargo_line json_loads py_str ln) as [[r|]|e] eqn:E; try reflexivity.
  exfalso. unfold cargo_line in E. rewrite Hloads in E.
  apply cargo_value_emit_inv in E.
  destruct E as [msg [reason [span0 [rest [c [Hmsg [Hr [Tr [Hsp _]]]]]]]]].
  destruct Hlack as [H|[H|H]].
  - congruence.
  - specialize (H reason Hr). congruence.
  - now apply (H msg span0 rest Hmsg).
Qed.

(** C6 (amended): when the message has no code and, reading the children
    in order, the first text with a match of the warning pattern has its
    leftmost match on the category [cat], the record printed has the code
    [warning-] followed by [cat] with each underscore turned into a hyphen;
    for [unused_variables] this is [warning-unused-variables]. *)
Theorem cargo_code_warning (ln : string) (d msg child : json)
    (pre post : list json) (s cat : string) (r : record) :
  json_loads ln = Some d ->
  field "message" d = Some msg ->
  code_absent msg ->
  field "children" msg = Some (JList (pre ++ child :: post)) ->
  (forall c t, In c pre -> field "message" c = Some (JString t) ->
               _warn_re_search t = None) ->
  field "message" child = Some (JString s) ->
  _warn_re_search s = Some cat ->
  cargo_line json_loads py_str ln = Ok (Some r) ->
  code r = JString ("warning-" ++ py_replace "_"%char "-"%char cat)
  /\ (cat = "unused_variables" -> code r = JString "warning-unused-variables").
Proof.
  intros Hloads Hmsg Habs Hch Hpre Hchild Hcat Hemit.
  assert (Hcode : code r = JString ("warning-" ++ py_replace "_"%char "-"%char cat)).
  { unfold cargo_line in Hemit. rewrite Hloads in Hemit.
    apply cargo_value_emit_inv in Hemit.
    destruct Hemit as [msg' [_ [_ [_ [c [Hmsg' [_ [_ [_ [Hc [Hr _]]]]]]]]]]].
    rewrite Hmsg in Hmsg'. injection Hmsg' as <-.
    destruct (cargo_code_absent msg c Habs Hc) as [children [Hget Hrest]].
    apply py_get_ok in Hget. destruct Hget as [m [-> ->]].
    simpl in Hch. rewrite Hch in Hrest.
    assert (T : truthy (JList (pre ++ child :: post)) = true)
      by (destruct pre; reflexivity).
    rewrite T in Hrest.
    destruct Hrest as [l [found [_ [Hiter [Hscan ->]]]]].
    injection Hiter as <-.
    rewrite (scan_children_first pre post child s cat found Hscan Hpre Hchild Hcat)
      in Hr.
    exact Hr. }
  split; [exact Hcode|].
  intros ->. exact Hcode.
Qed.

(** C7: when the message has no code and no child has a message text the
    warning pattern finds a match in, the record printed has the code
    [generic]. *)
Theorem cargo_code_generic (ln : string) (d msg : json) (r : record) :
  json_loads ln = Some d ->
  field "message" d = Some msg ->
  code_absent msg ->
  no_child_matches msg ->
  cargo_line json_loads py_str ln = Ok (Some r) ->
  code r = JString "generic".
Proof.
  intros Hloads Hmsg Habs Hnone Hemit.
  unfold cargo_line in Hemit. rewrite Hloads in Hemit.
  apply cargo_value_emit_inv in Hemit.
  destruct Hemit as [msg' [_ [_ [_ [c [Hmsg' [_ [_ [_ [Hc [Hr _]]]]]]]]]]].
  rewrite Hmsg in Hmsg'. injection Hmsg' as <-.
  destruct (cargo_code_absent msg c Habs Hc) as [children [_ Hrest]].
  assert (Hnull : c = JNull).
  { destruct (truthy children); [|exact Hrest].
    destruct Hrest as [l [found [Hf [Hiter [Hscan ->]]]]].
    rewrite (scan_children_none l found Hscan); [reflexivity|].
    intros ch t Hin Ht.
    destruct children as [| | | |cs|cl|cd]; simpl in Hiter; try discriminate;
      injection Hiter as <-.
    - apply in_map_iff in Hin. destruct Hin as [x [<- _]]. discriminate.
    - now apply (Hnone cl ch t Hf Hin Ht).
    - apply in_map_iff in Hin. destruct Hin as [x [<- _]]. discriminate. }
  rewrite Hnull in Hr. exact Hr.
Qed.

(** C10: when the message has a code object whose code value is not
    [None], the turn is the same whatever the children member is: the
    children are not read.  With the empty string as the code value the
    record printed has the code [generic]. *)
Theorem cargo_code_children_unread (ln ln' : string)
    (d msg msg' code_obj : dict) (v : json) :
  json_loads ln = Some (JObject d) ->
  dict_get "message" d = Some (JObject msg) ->
  dict_get "code" msg = Some (JObject code_obj) ->
  dict_get "code" code_obj = Some v ->
  v <> JNull ->
  same_but_children msg msg' ->
  json_loads ln' = Some (JObject (dict_set "message" (JObject msg') d)) ->
  cargo_line json_loads py_str ln' = cargo_line json_loads py_str ln
  /\ (v = JString "" ->
      forall r, cargo_line json_loads py_str ln = Ok (Some r) ->
                code r = JString "generic").
Proof.
  intros Hloads Hmsg Hcode Hv Hnn Hsame Hloads'.
  assert (Hcode' : dict_get "code" msg' = Some (JObject code_obj)).
  { rewrite (Hsame "code"); [exact Hcode | discriminate]. }
  pose proof (cargo_code_given msg code_obj v Hcode Hv Hnn) as Hc.
  pose proof (cargo_code_given msg' code_obj v Hcode' Hv Hnn) as Hc'.
  split.
  - unfold cargo_line. rewrite Hloads, Hloads'. unfold cargo_value.
    rewrite !py_get_object.
    rewrite dict_get_set_same, Hmsg.
    rewrite (dict_get_set_other "message" "reason"); [|discriminate].
    cbn [bind].
    rewrite (dict_get_nonempty _ _ _ Hcode), (dict_get_nonempty _ _ _ Hcode').
    destruct (same_but_children_get msg msg' "spans" Hsame) as [-> _];
      [discriminate|].
    destruct (py_get (JObject msg) "spans") as [spans|]; [|reflexivity].
    cbn [bind].
    destruct (andb _ _); [|reflexivity].
    unfold cargo_message.
    destruct (same_but_children_get msg msg' "message" Hsame) as [_ ->];
      [discriminate|].
    destruct (same_but_children_get msg msg' "level" Hsame) as [_ ->];
      [discriminate|].
    now rewrite Hc, Hc'.
  - intros -> r Hemit.
    unfold cargo_line in Hemit. rewrite Hloads in Hemit.
    apply cargo_value_emit_inv in Hemit.
    destruct Hemit as [m [_ [_ [_ [c [Hm [_ [_ [_ [Hcc [Hr _]]]]]]]]]]].
    simpl in Hm. rewrite Hmsg in Hm. injection Hm as <-.
    rewrite Hc in Hcc. injection Hcc as <-. exact Hr.
Qed.

(** A line [json.loads] rejects ends the turn with its error. *)
Lemma cargo_line_undecodable (ln : string) :
  json_loads ln = None -> cargo_line json_loads py_str ln = Raise ValueError.
Proof. intros H. unfold cargo_line. now rewrite H. Qed.

End CargoLine.

(* ===================================================================== *)
(** ** The read loop *)

Lemma readline_lines (pipe : string) :
  pipe <> "" ->
  fst (readline pipe) <> ""
  /\ lines_of pipe = fst (readline pipe) :: lines_of (snd (readline pipe))
  /\ (String.length (snd (readline pipe)) < String.length pipe)%nat.
Proof.
  induction pipe as [|c pipe IH]; intros Hne; [congruence|].
  simpl. destruct (Ascii.eqb c newline) eqn:Ec; simpl.
  - repeat split; [discriminate | lia].
  - destruct pipe as [|c' pipe'].
    + simpl. repeat split; [discriminate | lia].
    + destruct IH as [_ [Hl Hlen]]; [discriminate|].
      rewrite Hl.
      destruct (readline (String c' pipe')) as [l rest]. simpl in *.
      repeat split; [discriminate | lia].
Qed.

(** The lines put end to end are the pipe. *)
Lemma lines_of_concat (pipe : string) :
  String.concat "" (lines_of pipe) = pipe.
Proof.
  assert (Hc : forall l ls, String.concat "" (l :: ls) = l ++ String.concat "" ls).
  { intros l [|l' ls]; simpl; [now rewrite append_nil_r | reflexivity]. }
  induction pipe as [|c pipe IH]; [reflexivity|].
  simpl lines_of. destruct (Ascii.eqb c newline).
  - rewrite Hc, IH. reflexivity.
  - destruct (lines_of pipe) as [|l ls] eqn:E.
    + simpl in IH. now rewrite <- IH.
    + rewrite Hc. rewrite Hc in IH. simpl. now rewrite IH.
Qed.

Section ReadLoopFacts.

Context {R : Type}.
Variable body : string -> result (option R).

(** With more turns than the pipe has characters the loop reaches the end
    of the pipe, and it is the loop told on the lines. *)
Lemma read_loop_lines (fuel : nat) (pipe : string) (out : list R) :
  (String.length pipe < fuel)%nat ->
  read_loop body fuel pipe out = Some (run_lines body (lines_of pipe) out).
Proof.
  revert pipe out. induction fuel as [|fuel IH]; intros pipe out Hlen; [lia|].
  destruct pipe as [|c pipe'] eqn:Ep; [reflexivity|].
  destruct (readline_lines (String c pipe')) as [Hne [Hl Hshort]]; [discriminate|].
  cbn [read_loop]. rewrite Hl.
  destruct (readline (String c pipe')) as [l rest]. cbn [fst snd] in *.
  destruct (l =? "") eqn:El; [now apply eqb_empty in El|].
  cbn [run_lines].
  destruct (body l) as [[r|]|e]; try reflexivity; apply IH; lia.
Qed.

Lemma run_lines_ok (ls : list string) (out : list R) :
  (forall l, In l ls -> exists o, body l = Ok o) ->
  run_lines body ls out = ((out ++ records_of body ls)%list, Ok tt).
Proof.
  revert out. induction ls as [|l ls IH]; intros out Hall; simpl.
  - now rewrite app_nil_r.
  - destruct (Hall l (or_introl eq_refl)) as [o Ho]. rewrite Ho.
    destruct o as [r|]; simpl; rewrite IH; try (intros; apply Hall; now right).
    + now rewrite <- app_assoc.
    + reflexivity.
Qed.

Lemma run_lines_raise (pre post : list string) (l : string) (e : exn)
    (out : list R) :
  (forall x, In x pre -> exists o, body x = Ok o) ->
  body l = Raise e ->
  run_lines body (pre ++ l :: post)%list out
  = ((out ++ records_of body pre)%list, Raise e).
Proof.
  revert out. induction pre as [|x pre IH]; intros out Hall He; simpl.
  - now rewrite He, app_nil_r.
  - destruct (Hall x (or_introl eq_refl)) as [o Ho]. rewrite Ho.
    destruct o as [r|]; simpl; rewrite IH; try assumption;
      try (intros; apply Hall; now right).
    + now rewrite <- app_assoc.
    + reflexivity.
Qed.




End ReadLoopFacts.

(* ===================================================================== *)
(** ** The scripts *)

Section Scripts.

Variable json_loads : string -> option json.
Variable py_str : json -> string.
Variable popen : list string -> result child.

(** The structural adapter once the child has started. *)
Lemma cargo_main_started (c : child) :
  popen cargo_command = Ok c ->
  cargo_main json_loads py_str popen =
    Some (fst (run_lines (cargo_line json_loads py_str) (lines_of (stdout c)) []),
          match snd (run_lines (cargo_line json_loads py_str)
                       (lines_of (stdout c)) []) with
          | Ok _ => SysExit (returncode c)
          | Raise e => Uncaught e
          end).
Proof.
  intros Hc. unfold cargo_main. rewrite Hc.
  rewrite read_loop_lines by lia.
  destruct (run_lines _ _ _) as [out [u|e]]; reflexivity.
Qed.

(** The pattern adapter once the child has started: every turn ends
    without an error, so all the lines are read. *)
Lemma flake8_main_started (argv : list string) (c : child) :
  popen (flake8_command argv) = Ok c ->
  flake8_main popen argv =
    Some (records_of flake8_line (lines_of (stdout c)), EndOfScript).
Proof.
  intros Hc. unfold flake8_main. rewrite Hc.
  rewrite read_loop_lines by lia.
  rewrite run_lines_ok; [reflexivity|].
  intros l _. apply flake8_line_total.
Qed.

(** C2 (amended): for the structural adapter, when the child has started
    and no turn of the loop raises, the script ends in [sys.exit] on what
    [c.wait()] returned: the exit status of the adapter is the return code
    of the child modulo 256, which is the exit code of the child whenever
    the child ended with an exit code (0 to 255; a child ended by a signal
    has a negative return code).  The records printed are those of all the
    lines, however many they are. *)
Theorem cargo_main_exit_status (c : child) :
  popen cargo_command = Ok c ->
  (forall l, In l (lines_of (stdout c)) ->
             exists o, cargo_line json_loads py_str l = Ok o) ->
  exists out oc,
    cargo_main json_loads py_str popen = Some (out, oc)
    /\ out = records_of (cargo_line json_loads py_str) (lines_of (stdout c))
    /\ oc = SysExit (returncode c)
    /\ exit_status oc = (returncode c mod 256)%Z
    /\ ((0 <= returncode c < 256)%Z -> exit_status oc = returncode c).
Proof.
  intros Hc Hall.
  rewrite (cargo_main_started c Hc), (run_lines_ok _ _ _ Hall).
  eexists. eexists. split; [reflexivity|]. split; [reflexivity|].
  split; [reflexivity|]. split; [reflexivity|].
  intros Hrc. simpl. now apply Z.mod_small.
Qed.

(** C3 (amended): a line [json.loads] rejects gets no record, and its
    error is not caught: when the turns of the lines before it end without
    an error, the adapter has printed the records of these lines only and
    ends on the error, with exit status 1 whatever the child returns. *)
Theorem cargo_main_undecodable (c : child) (pre post : list string)
    (ln : string) :
  popen cargo_command = Ok c ->
  lines_of (stdout c) = (pre ++ ln :: post)%list ->
  (forall l, In l pre -> exists o, cargo_line json_loads py_str l = Ok o) ->
  json_loads ln = None ->
  emitted (cargo_line json_loads py_str ln) = []
  /\ cargo_main json_loads py_str popen =
       Some (records_of (cargo_line json_loads py_str) pre, Uncaught ValueError)
  /\ exit_status (Uncaught ValueError) = 1%Z.
Proof.
  intros Hc Hlines Hpre Hbad.
  pose proof (cargo_line_undecodable json_loads py_str ln Hbad) as Hraise.
  split; [now rewrite Hraise|]. split; [|reflexivity].
  rewrite (cargo_main_started c Hc), Hlines.
  now rewrite (run_lines_raise _ pre post ln ValueError [] Hpre Hraise).
Qed.



(** X12: both scripts end, with or without a child. *)
Lemma mains_total (argv : list string) :
  (exists res, cargo_main json_loads py_str popen = Some res)
  /\ (exists res, flake8_main popen argv = Some res).
Proof.
  split.
  - destruct (popen cargo_command) as [c|e] eqn:E.
    + rewrite (cargo_main_started c E). now eexists.
    + unfold cargo_main. rewrite E. now eexists.
  - destruct (popen (flake8_command argv)) as [c|e] eqn:E.
    + rewrite (flake8_main_started argv c E). now eexists.
    + unfold flake8_main. rewrite E. now eexists.
Qed.

End Scripts.

(* ===================================================================== *)
(** ** One turn of the pattern adapter *)

(** C4: the line [src/a.py:12:5: E501 line too long], with or without its
    line feed, gets the record of the claim; and every line of the form
    [filename:line:column: code message] gets the record with the filename
    and the code as they stand, the numbers the line and column digits
    write, and as message what follows the blank after the code, up to the
    end of the line. *)
Theorem flake8_line_report :
  flake8_line "src/a.py:12:5: E501 line too long"
    = Ok (Some (mkReport "src/a.py" 12 5 "E501" "line too long"))
  /\ flake8_line ("src/a.py:12:5: E501 line too long" ++ String newline "")
    = Ok (Some (mkReport "src/a.py" 12 5 "E501" "line too long"))
  /\ forall ln g,
       report_shape ln g ->
       flake8_line ln =
         Ok (Some (mkReport (g_filename g) (decimal 0 (g_line g))
                     (decimal 0 (g_column g)) (g_code g) (g_message g))).
Proof.
  split; [reflexivity|]. split; [reflexivity|].
  intros ln g H. apply flake8_line_match. now apply report_match_complete.
Qed.

(** C8: a line that is not of the form [filename:line:column: code
    message] gets no record and no error. *)
Theorem flake8_line_no_match (ln : string) :
  (forall g, ~ report_shape ln g) ->
  flake8_line ln = Ok None /\ emitted (flake8_line ln) = [].
Proof.
  intros H. assert (E : _report_re_match ln = None).
  { destruct (_report_re_match ln) as [g|] eqn:E; [|reflexivity].
    apply report_match_sound in E. now destruct (H g). }
  unfold flake8_line. rewrite E. split; reflexivity.
Qed.

(* ===================================================================== *)
(** ** The statements on the example inputs *)

Ltac decide_member H :=
  vm_compute in H; first [discriminate H | injection H as <-].

(** C1 on the warning line. *)
Lemma cargo_line_emits_first_span_witness :
  exists r,
    cargo_line json_loads_lite str_of_scalar line_warning = Ok (Some r)
    /\ emitted (cargo_line json_loads_lite str_of_scalar line_warning) = [r]
    /\ filename r = JString "src/main.rs"
    /\ line r = JInt 2
    /\ column r = JInt 9.
Proof.
  eapply (cargo_line_emits_first_span json_loads_lite str_of_scalar line_warning);
    try (vm_compute; reflexivity).
  - intros v H. decide_member H. left. reflexivity.
  - intros v H. decide_member H. right. eexists. split; [reflexivity|].
    repeat constructor. eexists. reflexivity.
Defined.

(** The claim of C1 as it stands fails on an object that has the message,
    the reason and the span, and neither a message text nor a level. *)
Lemma cargo_line_bare_object_raises :
  exists d msg span0 reason,
    json_loads_lite line_bare = Some (JObject d)
    /\ dict_get "message" d = Some (JObject msg)
    /\ dict_get "reason" d = Some reason
    /\ truthy reason = true
    /\ dict_get "spans" msg = Some (JList [JObject span0])
    /\ dict_get "file_name" span0 = Some (JString "src/main.rs")
    /\ dict_get "line_start" span0 = Some (JInt 2)
    /\ dict_get "column_start" span0 = Some (JInt 9)
    /\ cargo_line json_loads_lite str_of_scalar line_bare = Raise KeyError
    /\ emitted (cargo_line json_loads_lite str_of_scalar line_bare) = [].
Proof.
  do 4 eexists. split; [vm_compute; reflexivity|].
  repeat split; vm_compute; reflexivity.
Qed.

(** C5 on a build event. *)
Lemma cargo_line_not_diagnostic_witness :
  emitted (cargo_line json_loads_lite str_of_scalar line_artifact) = [].
Proof.
  eapply (cargo_line_not_diagnostic json_loads_lite str_of_scalar line_artifact).
  - vm_compute. reflexivity.
  - left. reflexivity.
Defined.

(** C6 on the warning line. *)
Lemma cargo_code_warning_witness :
  cargo_line json_loads_lite str_of_scalar line_warning = Ok (Some record_warning)
  /\ code record_warning = JString "warning-unused-variables".
Proof.
  split; [vm_compute; reflexivity|].
  eapply (cargo_code_warning json_loads_lite str_of_scalar line_warning
            _ _ _ [] _ _ "unused_variables" record_warning);
    try (vm_compute; reflexivity).
  - left. right. vm_compute. reflexivity.
  - intros c t [].
Defined.

(** The claim of C6 as it stands fails when a child that names another
    category comes first. *)
Lemma cargo_code_first_marker_wins :
  exists d msg c1 c2,
    json_loads_lite line_two_markers = Some (JObject d)
    /\ dict_get "message" d = Some (JObject msg)
    /\ dict_get "code" msg = Some JNull
    /\ dict_get "children" msg = Some (JList [c1; c2])
    /\ field "message" c2
       = Some (JString ("`" ++ marker "unused_variables" ++ "` on by default"))
    /\ _warn_re_search ("`" ++ marker "unused_variables" ++ "` on by default")
       = Some "unused_variables"
    /\ cargo_line json_loads_lite str_of_scalar line_two_markers
       = Ok (Some record_two_markers)
    /\ code record_two_markers = JString "warning-dead-code"
    /\ code record_two_markers <> JString "warning-unused-variables".
Proof.
  do 4 eexists. split; [vm_compute; reflexivity|].
  repeat split; try (vm_compute; reflexivity).
  discriminate.
Qed.

(** C7 on the error line. *)
Lemma cargo_code_generic_witness :
  cargo_line json_loads_lite str_of_scalar line_mismatch = Ok (Some record_mismatch)
  /\ code record_mismatch = JString "generic".
Proof.
  split; [vm_compute; reflexivity|].
  eapply (cargo_code_generic json_loads_lite str_of_scalar line_mismatch);
    try (vm_compute; reflexivity).
  - left. right. vm_compute. reflexivity.
  - intros children child s H Hin Hs. decide_member H.
    destruct Hin as [<-|[]]. decide_member Hs. vm_compute. reflexivity.
Defined.

(** C10 on a diagnostic with the empty code, against the same diagnostic
    with children that cannot be iterated. *)
Lemma cargo_code_children_unread_witness :
  cargo_line json_loads_lite str_of_scalar line_empty_code_odd_children
    = cargo_line json_loads_lite str_of_scalar line_empty_code
  /\ cargo_line json_loads_lite str_of_scalar line_empty_code
    = Ok (Some record_empty_code)
  /\ code record_empty_code = JString "generic".
Proof.
  destruct (cargo_code_children_unread json_loads_lite str_of_scalar
              line_empty_code line_empty_code_odd_children
              object_empty_code msg_empty_code msg_empty_code_odd_children
              [("code", JString "")] (JString ""))
    as [Heq Hgen].
  - vm_compute. reflexivity.
  - reflexivity.
  - reflexivity.
  - reflexivity.
  - discriminate.
  - intros k Hk. apply String.eqb_neq in Hk.
    unfold msg_empty_code, msg_empty_code_odd_children.
    cbn [dict_get]. rewrite Hk. reflexivity.
  - vm_compute. reflexivity.
  - split; [exact Heq|]. split; [vm_compute; reflexivity|].
    apply (Hgen eq_refl). vm_compute. reflexivity.
Defined.

(** C2 on a child that prints three lines and returns 101, and on the same
    child ended by signal 9. *)
Lemma cargo_main_exit_status_witness :
  (exists out oc,
     cargo_main json_loads_lite str_of_scalar
       (popen_always (mkChild (line_artifact ++ line_mismatch ++ line_warning) 101))
       = Some (out, oc)
     /\ out = [record_mismatch; record_warning]
     /\ exit_status oc = 101%Z)
  /\ (exists out oc,
        cargo_main json_loads_lite str_of_scalar
          (popen_always (mkChild (line_artifact ++ line_mismatch ++ line_warning) (-9)))
          = Some (out, oc)
        /\ out = [record_mismatch; record_warning]
        /\ exit_status oc = 247%Z).
Proof.
  assert (Hturns : forall l,
             In l (lines_of (line_artifact ++ line_mismatch ++ line_warning)) ->
             exists o, cargo_line json_loads_lite str_of_scalar l = Ok o).
  { intros l Hin. vm_compute in Hin.
    destruct Hin as [<-|[<-|[<-|[]]]]; eexists; vm_compute; reflexivity. }
  split.
  - destruct (cargo_main_exit_status json_loads_lite str_of_scalar
                (popen_always (mkChild (line_artifact ++ line_mismatch ++ line_warning) 101))
                (mkChild (line_artifact ++ line_mismatch ++ line_warning) 101)
                eq_refl Hturns)
      as [out [oc [Hmain [Hout [_ [_ Hst]]]]]].
    exists out, oc. split; [exact Hmain|]. split.
    + rewrite Hout. vm_compute. reflexivity.
    + apply Hst. simpl. lia.
  - destruct (cargo_main_exit_status json_loads_lite str_of_scalar
                (popen_always (mkChild (line_artifact ++ line_mismatch ++ line_warning) (-9)))
                (mkChild (line_artifact ++ line_mismatch ++ line_warning) (-9))
                eq_refl Hturns)
      as [out [oc [Hmain [Hout [_ [Hst _]]]]]].
    exists out, oc. split; [exact Hmain|]. split.
    + rewrite Hout. vm_compute. reflexivity.
    + exact Hst.
Defined.

(** The claim of C2 as it stands fails for the pattern adapter on a child
    that returns 1, and for the structural adapter on a child that returns
    0 after a line that is not JSON. *)
Lemma exit_code_not_forwarded :
  flake8_main
      (popen_always (mkChild ("src/a.py:12:5: E501 line too long" ++ nl) 1))
      ["run-flake8.py"; "src"]
    = Some ([mkReport "src/a.py" 12 5 "E501" "line too long"], EndOfScript)
  /\ exit_status EndOfScript = 0%Z
  /\ cargo_main json_loads_lite str_of_scalar
       (popen_always (mkChild (line_not_json ++ line_warning) 0))
     = Some ([], Uncaught ValueError)
  /\ exit_status (Uncaught ValueError) = 1%Z.
Proof. repeat split; vm_compute; reflexivity. Qed.

(** C3 on a child whose second line is not JSON. *)
Lemma cargo_main_undecodable_witness :
  emitted (cargo_line json_loads_lite str_of_scalar line_not_json) = []
  /\ cargo_main json_loads_lite str_of_scalar
       (popen_always (mkChild (line_mismatch ++ line_not_json ++ line_warning) 0))
     = Some ([record_mismatch], Uncaught ValueError)
  /\ exit_status (Uncaught ValueError) = 1%Z.
Proof.
  destruct (cargo_main_undecodable json_loads_lite str_of_scalar
              (popen_always (mkChild (line_mismatch ++ line_not_json ++ line_warning) 0))
              (mkChild (line_mismatch ++ line_not_json ++ line_warning) 0)
              [line_mismatch] [line_warning] line_not_json)
    as [Hemit [Hmain Hst]].
  - reflexivity.
  - vm_compute. reflexivity.
  - intros l [<-|[]]. eexists. vm_compute. reflexivity.
  - vm_compute. reflexivity.
  - split; [exact Hemit|]. split; [|exact Hst].
    rewrite Hmain. vm_compute. reflexivity.
Defined.

(** The claim of C3 as it stands fails on a line that is not JSON: the
    turn raises, the adapter ends on the error with status 1 while the child
    returned 0, and the diagnostic that follows is never printed. *)
Lemma cargo_undecodable_line_raises :
  json_loads_lite line_not_json = None
  /\ cargo_line json_loads_lite str_of_scalar line_not_json = Raise ValueError
  /\ cargo_main json_loads_lite str_of_scalar
       (popen_always (mkChild (line_not_json ++ line_warning) 0))
     = Some ([], Uncaught ValueError)
  /\ exit_status (Uncaught ValueError) = 1%Z
  /\ cargo_main json_loads_lite str_of_scalar
       (popen_always (mkChild line_warning 0))
     = Some ([record_warning], SysExit 0).
Proof. repeat split; vm_compute; reflexivity. Qed.

(** C4 on a line with a tab after the column and a summary behind the
    line feed. *)
Lemma flake8_line_report_witness :
  flake8_line ("demo/x.py:007:80:" ++ String (ascii_of_nat 9) "W291 trailing whitespace"
               ++ nl ++ "1 W291")
  = Ok (Some (mkReport "demo/x.py" 7 80 "W291" "trailing whitespace")).
Proof.
  apply (proj2 (proj2 flake8_line_report) _
           (mkGroups "demo/x.py" "007" "80" "W291" "trailing whitespace")).
  exists (ascii_of_nat 9), " "%char, ("trailing whitespace" ++ nl ++ "1 W291").
  repeat split; vm_compute; reflexivity.
Defined.

(** C8 on a line of the statistics of the linter. *)
Lemma flake8_line_no_match_witness :
  flake8_line ("1     E501 line too long (82 > 79 characters)" ++ nl) = Ok None
  /\ emitted (flake8_line ("1     E501 line too long (82 > 79 characters)" ++ nl)) = [].
Proof.
  apply flake8_line_no_match.
  intros g H. apply report_match_complete in H. vm_compute in H. discriminate H.
Defined.


(* ===================================================================== *)
(** ** Further facts: the pattern adapter *)

Lemma take_while_app_stop (p : ascii -> bool) (a b : string) :
  all_chars p a = true -> stops p b -> take_while p (a ++ b) = a.
Proof.
  intros Ha Hb. induction a as [|c a IH]; simpl.
  - destruct b as [|c b]; [reflexivity|]. simpl in Hb. simpl. now rewrite Hb.
  - simpl in Ha. apply andb_true_iff in Ha. destruct Ha as [Hc Ha].
    now rewrite Hc, IH.
Qed.

Lemma all_chars_take_while (p : ascii -> bool) (s : string) :
  all_chars p (take_while p s) = true.
Proof.
  induction s as [|c s IH]; [reflexivity|].
  cbn [take_while]. destruct (p c) eqn:Hc; [|reflexivity].
  cbn [all_chars]. now rewrite Hc, IH.
Qed.

Lemma class_plus_parts (p : ascii -> bool) (s : string) :
  class_plus p s = true -> s <> "" /\ all_chars p s = true.
Proof.
  intros H. destruct (class_plus_cons _ _ H) as [c [s' [-> [Hc Hs]]]].
  split; [discriminate | simpl; now rewrite Hc, Hs].
Qed.

Lemma digit_value_range (c : ascii) :
  is_digit c = true -> (0 <= digit_value c <= 9)%Z.
Proof.
  unfold is_digit, digit_value. intros H.
  apply andb_true_iff in H. destruct H as [H1 H2].
  apply Nat.leb_le in H1. apply Nat.leb_le in H2.
  lia.
Qed.

Lemma decimal_nonneg (s : string) (acc : Z) :
  all_chars is_digit s = true -> (0 <= acc)%Z -> (0 <= decimal acc s)%Z.
Proof.
  revert acc. induction s as [|c s IH]; intros acc Hs Hacc; [exact Hacc|].
  cbn [all_chars] in Hs. apply andb_true_iff in Hs. destruct Hs as [Hc Hs].
  cbn [decimal]. apply IH; [exact Hs|].
  pose proof (digit_value_range c Hc). lia.
Qed.

(** X13: what every record of the pattern adapter is like: the filename is the
    text of the line before its first colon, and is not empty; the line and
    the column are not negative; the code is not empty and has no blank; the
    message has no line feed. *)
Theorem flake8_record_invariants (ln : string) (r : report) :
  flake8_line ln = Ok (Some r) ->
  r_filename r = take_while (not_char ":"%char) ln
  /\ r_filename r <> ""
  /\ (0 <= r_line r)%Z
  /\ (0 <= r_column r)%Z
  /\ class_plus not_space (r_code r) = true
  /\ all_chars not_newline (r_message r) = true.
Proof.
  intros H.
  destruct (_report_re_match ln) as [g|] eqn:E.
  2:{ unfold flake8_line in H. rewrite E in H. discriminate. }
  rewrite (flake8_line_match _ _ E) in H. injection H as <-. simpl.
  apply report_match_sound in E.
  destruct E as [w1 [w2 [rest [-> [Hf [Hl [Hc [_ [Hcode [_ Hm]]]]]]]]]].
  destruct (class_plus_parts _ _ Hf) as [Hfne Hfall].
  destruct (class_plus_parts _ _ Hl) as [_ Hlall].
  destruct (class_plus_parts _ _ Hc) as [_ Hcall].
  repeat split.
  - symmetry. now apply take_while_app_stop.
  - exact Hfne.
  - now apply decimal_nonneg.
  - now apply decimal_nonneg.
  - exact Hcode.
  - rewrite Hm. apply all_chars_take_while.
Qed.

Lemma flake8_record_invariants_witness :
  flake8_line ("  src/a b.py:012:5: E501 line too long" ++ nl)
    = Ok (Some (mkReport "  src/a b.py" 12 5 "E501" "line too long"))
  /\ "  src/a b.py"
     = take_while (not_char ":"%char) ("  src/a b.py:012:5: E501 line too long" ++ nl)
  /\ (0 <= 12)%Z.
Proof.
  assert (E : flake8_line ("  src/a b.py:012:5: E501 line too long" ++ nl)
              = Ok (Some (mkReport "  src/a b.py" 12 5 "E501" "line too long")))
    by (vm_compute; reflexivity).
  destruct (flake8_record_invariants _ _ E) as [Hf [_ [Hl _]]].
  split; [exact E|]. split; [exact Hf | exact Hl].
Defined.

Lemma prefix_slash (c : ascii) (arg : string) :
  String.prefix "/" (String c arg) = Ascii.eqb c "/"%char.
Proof.
  cbn [String.prefix]. destruct (ascii_dec "/"%char c) as [<-|Hn].
  - rewrite Ascii.eqb_refl. destruct arg; reflexivity.
  - symmetry. apply Ascii.eqb_neq. congruence.
Qed.

Lemma path_join_dot_anchored (arg : string) :
  anchored (path_join_dot arg)
  /\ (String.prefix "/" arg = true -> path_join_dot arg = arg)
  /\ (String.prefix "/" arg = false -> path_join_dot arg = "./" ++ arg).
Proof.
  unfold anchored, path_join_dot. destruct arg as [|c arg].
  - split; [right; reflexivity|]. split; [discriminate | reflexivity].
  - rewrite prefix_slash. destruct (Ascii.eqb c "/"%char) eqn:E.
    + rewrite prefix_slash, E.
      split; [left; reflexivity|]. split; [reflexivity | discriminate].
    + split; [right; reflexivity|]. split; [discriminate | reflexivity].
Qed.

(** X14: the command of the pattern adapter: [flake8], then one argument for
    each argument of the script after its name, in the same order, of the
    form [--filename=path] where [path] is the argument itself when it is
    absolute and the argument behind [./] otherwise. *)
Theorem flake8_command_arguments (argv : list string) :
  hd "" (flake8_command argv) = "flake8"
  /\ length (flake8_command argv) = S (length (tl argv))
  /\ forall i arg,
       nth_error (tl argv) i = Some arg ->
       exists path,
         nth_error (flake8_command argv) (S i) = Some ("--filename=" ++ path)
         /\ anchored path
         /\ (String.prefix "/" arg = true -> path = arg)
         /\ (String.prefix "/" arg = false -> path = "./" ++ arg).
Proof.
  unfold flake8_command. split; [reflexivity|]. split.
  - simpl. now rewrite length_map.
  - intros i arg Hi. exists (path_join_dot arg).
    split; [|apply path_join_dot_anchored].
    cbn [nth_error]. rewrite nth_error_map, Hi. reflexivity.
Qed.

(* ===================================================================== *)
(** ** Further facts: the scan of the children *)

Lemma py_replace_clears (a b : ascii) (s : string) :
  a <> b -> all_chars (not_char a) (py_replace a b s) = true.
Proof.
  intros Hab. induction s as [|c s IH]; [reflexivity|].
  cbn [py_replace all_chars]. rewrite IH, andb_true_r.
  unfold not_char. destruct (Ascii.eqb c a) eqn:E.
  - apply negb_true_iff, Ascii.eqb_neq. congruence.
  - now rewrite E.
Qed.

Lemma py_replace_length (a b : ascii) (s : string) :
  String.length (py_replace a b s) = String.length s.
Proof. induction s as [|c s IH]; simpl; [reflexivity | now rewrite IH]. Qed.

(** X7: a code the scan makes up comes from a child of the list: it is
    [warning-] followed by the category the pattern finds in the message
    text of that child, it is eight characters longer than the category
    and it has no underscore. *)
Theorem scan_children_synthesized (children : list json) (c : string) :
  scan_children children = Ok (Some c) ->
  exists child s cat,
    In child children
    /\ field "message" child = Some (JString s)
    /\ _warn_re_search s = Some cat
    /\ c = "warning-" ++ py_replace "_"%char "-"%char cat
    /\ String.length c = (8 + String.length cat)%nat
    /\ all_chars (not_char "_"%char) c = true.
Proof.
  induction children as [|ch rest IH]; intros H; simpl in H; [discriminate|].
  bind_ok H. bind_ok H.
  apply py_getitem_ok in E.
  destruct a as [| | | |s| |]; simpl in E0; try discriminate.
  injection E0 as <-.
  destruct (_warn_re_search s) as [cat|] eqn:Es.
  - injection H as <-. exists ch, s, cat.
    split; [now left|]. split; [exact E|]. split; [exact Es|].
    split; [reflexivity|]. split.
    + cbn [String.append String.length]. now rewrite py_replace_length.
    + cbn [String.append all_chars]. rewrite py_replace_clears by discriminate.
      reflexivity.
  - destruct (IH H) as [child [s' [cat [Hin Hrest]]]].
    exists child, s', cat. split; [now right | exact Hrest].
Qed.

Lemma scan_children_synthesized_witness :
  exists child s cat,
    In child
       [JObject [("message", JString "lint level defined here")];
        JObject [("message",
                  JString ("`" ++ marker "non_snake_case" ++ "` on by default"))]]
    /\ field "message" child = Some (JString s)
    /\ _warn_re_search s = Some cat
    /\ "warning-non-snake-case" = "warning-" ++ py_replace "_"%char "-"%char cat
    /\ String.length "warning-non-snake-case" = (8 + String.length cat)%nat
    /\ all_chars (not_char "_"%char) "warning-non-snake-case" = true.
Proof.
  apply scan_children_synthesized. vm_compute. reflexivity.
Defined.

(** X8: the scan stops at the first child with a match: when the children
    before it can be read and have none, the code comes from that child
    whatever follows it in the list, readable or not. *)
Theorem scan_children_stops_at_match (pre post : list json) (child : json)
    (s cat : string) :
  Forall child_readable pre ->
  (forall c t, In c pre -> field "message" c = Some (JString t) ->
               _warn_re_search t = None) ->
  field "message" child = Some (JString s) ->
  _warn_re_search s = Some cat ->
  scan_children (pre ++ child :: post)
    = Ok (Some ("warning-" ++ py_replace "_"%char "-"%char cat)).
Proof.
  intros Hread Hnone Hchild Hcat.
  induction Hread as [|c pre [t Ht] _ IH]; cbn [app scan_children].
  - apply py_getitem_ok in Hchild. rewrite Hchild. cbn [bind warn_search].
    now rewrite Hcat.
  - pose proof (Hnone c t (or_introl eq_refl) Ht) as Hc.
    apply py_getitem_ok in Ht. rewrite Ht. cbn [bind warn_search]. rewrite Hc.
    apply IH. intros c' t' Hin. apply Hnone. now right.
Qed.

Lemma scan_children_stops_at_match_witness :
  scan_children
    ([JObject [("message", JString "lint level defined here")]]
     ++ JObject [("message", JString (marker "dead_code"))]
     :: [JInt 7; JNull])
  = Ok (Some "warning-dead-code").
Proof.
  apply (scan_children_stops_at_match
           [JObject [("message", JString "lint level defined here")]]
           [JInt 7; JNull]
           (JObject [("message", JString (marker "dead_code"))])
           (marker "dead_code") "dead_code").
  - repeat constructor. eexists. reflexivity.
  - intros c t [<-|[]] Ht. vm_compute in Ht. injection Ht as <-.
    vm_compute. reflexivity.
  - reflexivity.
  - vm_compute. reflexivity.
Defined.

(** X9: the scan raises on the first child it cannot read, when no child
    before it has a match: [KeyError] for an object without a message,
    [TypeError] for a child that is no object or a message that is no
    string. *)
Theorem scan_children_unreadable (pre post : list json) (bad : json) :
  Forall child_readable pre ->
  (forall c t, In c pre -> field "message" c = Some (JString t) ->
               _warn_re_search t = None) ->
  ~ child_readable bad ->
  scan_children (pre ++ bad :: post)
    = Raise (match bad with
             | JObject d =>
                 match dict_get "message" d with
                 | None => KeyError
                 | Some _ => TypeError
                 end
             | _ => TypeError
             end).
Proof.
  intros Hread Hnone Hbad.
  induction Hread as [|c pre [t Ht] _ IH]; cbn [app scan_children].
  - destruct bad as [| | | | | |d]; try reflexivity.
    cbn [py_getitem]. destruct (dict_get "message" d) as [m|] eqn:Em; [|reflexivity].
    cbn [bind]. destruct m; try reflexivity.
    destruct Hbad. eexists. simpl. exact Em.
  - pose proof (Hnone c t (or_introl eq_refl) Ht) as Hc.
    apply py_getitem_ok in Ht. rewrite Ht. cbn [bind warn_search]. rewrite Hc.
    apply IH. intros c' t' Hin. apply Hnone. now right.
Qed.

Lemma scan_children_unreadable_witness :
  scan_children
    ([JObject [("message", JString "lint level defined here")]]
     ++ JObject [("level", JString "note")]
     :: [JObject [("message", JString (marker "dead_code"))]])
  = Raise KeyError.
Proof.
  apply (scan_children_unreadable
           [JObject [("message", JString "lint level defined here")]]
           [JObject [("message", JString (marker "dead_code"))]]
           (JObject [("level", JString "note")])).
  - repeat constructor. eexists. reflexivity.
  - intros c t [<-|[]] Ht. vm_compute in Ht. injection Ht as <-.
    vm_compute. reflexivity.
  - intros [s Hs]. vm_compute in Hs. discriminate Hs.
Defined.

(* ===================================================================== *)
(** ** Further facts: one turn of the structural adapter *)

Section CargoTurn.

Variable json_loads : string -> option json.
Variable py_str : json -> string.

(** X1: a record is printed only for a line that decodes to an object with a
    message object, a true reason and a non-empty spans list in the
    message; its filename, line and column are members of the first span
    and its level is the level of the message, as they were decoded. *)
Theorem cargo_record_origin (ln : string) (r : record) :
  cargo_line json_loads py_str ln = Ok (Some r) ->
  exists d msg reason span0 rest,
    json_loads ln = Some (JObject d)
    /\ dict_get "message" d = Some (JObject msg)
    /\ dict_get "reason" d = Some reason
    /\ truthy reason = true
    /\ dict_get "spans" msg = Some (JList (JObject span0 :: rest))
    /\ dict_get "file_name" span0 = Some (filename r)
    /\ dict_get "line_start" span0 = Some (line r)
    /\ dict_get "column_start" span0 = Some (column r)
    /\ dict_get "level" msg = Some (level r).
Proof.
  unfold cargo_line. intros H.
  destruct (json_loads ln) as [v|]; [|discriminate].
  apply cargo_value_emit_inv in H.
  destruct H as [msg [reason [span0 [rest [c
                  [Hmsg [Hr [Tr [Hsp [_ [_ [Hfn [Hlv [Hls Hcs]]]]]]]]]]]]]].
  destruct v as [| | | | | |d]; try discriminate.
  destruct msg as [| | | | | |m]; try discriminate.
  destruct span0 as [| | | | | |sp]; try discriminate.
  exists d, m, reason, sp, rest. repeat split; assumption.
Qed.

(** X2: the message of a record: the message text as it was decoded when the
    first span has no label or a false one; otherwise the text and the
    label put in the format [%s (%s)]. *)
Theorem cargo_message_label (ln : string) (d msg span0 : dict)
    (rest : list json) (m : json) (r : record) :
  json_loads ln = Some (JObject d) ->
  dict_get "message" d = Some (JObject msg) ->
  dict_get "spans" msg = Some (JList (JObject span0 :: rest)) ->
  dict_get "message" msg = Some m ->
  cargo_line json_loads py_str ln = Ok (Some r) ->
  message r =
    match dict_get "label" span0 with
    | Some l => if truthy l
                then JString (py_str m ++ " (" ++ py_str l ++ ")")
                else m
    | None => m
    end.
Proof.
  intros Hloads Hmsg Hspans Hm H.
  unfold cargo_line in H. rewrite Hloads in H. unfold cargo_value in H.
  rewrite !py_get_object, Hmsg in H. cbn [bind] in H.
  rewrite (dict_get_nonempty _ _ _ Hm) in H.
  rewrite py_get_object, Hspans in H. cbn [bind] in H.
  destruct (andb _ _); [|discriminate].
  assert (Htext : cargo_message py_str (JObject msg) (JList (JObject span0 :: rest))
                  = Ok (match dict_get "label" span0 with
                        | Some l => if truthy l
                                    then JString (py_str m ++ " (" ++ py_str l ++ ")")
                                    else m
                        | None => m
                        end)).
  { unfold cargo_message, py_getitem. rewrite Hm. cbn [bind py_first].
    rewrite py_get_object.
    destruct (dict_get "label" span0) as [l|]; cbn [bind]; [|reflexivity].
    destruct (truthy l); reflexivity. }
  rewrite Htext in H. cbn [bind] in H.
  destruct (cargo_code (JObject msg)); cbn [bind] in H; [|discriminate].
  destruct (s0 <- py_first _ ;; py_getitem s0 "file_name"); cbn [bind] in H;
    [|discriminate].
  destruct (py_getitem (JObject msg) "level"); cbn [bind] in H; [|discriminate].
  destruct (s0 <- py_first _ ;; py_getitem s0 "line_start"); cbn [bind] in H;
    [|discriminate].
  destruct (s0 <- py_first _ ;; py_getitem s0 "column_start"); cbn [bind] in H;
    [|discriminate].
  now injection H as <-.
Qed.

(** X3: a code value of the message that is true is the code of the record,
    unchanged. *)
Theorem cargo_code_passthrough (ln : string) (d msg code_obj : dict)
    (v : json) (r : record) :
  json_loads ln = Some (JObject d) ->
  dict_get "message" d = Some (JObject msg) ->
  dict_get "code" msg = Some (JObject code_obj) ->
  dict_get "code" code_obj = Some v ->
  truthy v = true ->
  cargo_line json_loads py_str ln = Ok (Some r) ->
  code r = v.
Proof.
  intros Hloads Hmsg Hcode Hv Tv H.
  unfold cargo_line in H. rewrite Hloads in H.
  apply cargo_value_emit_inv in H.
  destruct H as [m [_ [_ [_ [c [Hm [_ [_ [_ [Hc [Hr _]]]]]]]]]]].
  simpl in Hm. rewrite Hmsg in Hm. injection Hm as <-.
  rewrite (cargo_code_given msg code_obj v Hcode Hv) in Hc.
  - injection Hc as <-. now rewrite Tv in Hr.
  - intros ->. discriminate.
Qed.

(** X4: a line that decodes to an object is passed over without a record and
    without an error when its message is absent or false, or when its
    message is an object and the reason, or the spans member of the
    message, is absent or false. *)
Theorem cargo_line_skips_silently (ln : string) (d : dict) :
  json_loads ln = Some (JObject d) ->
  (forall m, dict_get "message" d = Some m ->
     truthy m = false
     \/ exists msg,
          m = JObject msg
          /\ ((forall x, dict_get "reason" d = Some x -> truthy x = false)
              \/ (forall s, dict_get "spans" msg = Some s -> truthy s = false))) ->
  cargo_line json_loads py_str ln = Ok None.
Proof.
  intros Hloads Hgate. unfold cargo_line. rewrite Hloads. unfold cargo_value.
  rewrite !py_get_object. cbn [bind].
  destruct (dict_get "message" d) as [m|] eqn:Em; [|reflexivity].
  destruct (Hgate m eq_refl) as [Tm|[msg [-> Hrs]]].
  - rewrite Tm. reflexivity.
  - destruct (truthy (JObject msg)); [|reflexivity].
    rewrite py_get_object. cbn [bind andb].
    destruct Hrs as [Hr|Hs].
    + destruct (dict_get "reason" d) as [x|]; [rewrite (Hr x eq_refl)|];
        reflexivity.
    + destruct (dict_get "spans" msg) as [s|]; [rewrite (Hs s eq_refl)|];
        cbn [truthy]; now rewrite andb_false_r.
Qed.

(** X5: a line that decodes to something that is no object, or to an object
    whose message is true and no object, raises [AttributeError]. *)
Theorem cargo_line_attribute_error (ln : string) (v : json) :
  json_loads ln = Some v ->
  (forall d, v <> JObject d)
  \/ (exists m, field "message" v = Some m
                /\ truthy m = true /\ forall msg, m <> JObject msg) ->
  cargo_line json_loads py_str ln = Raise AttributeError.
Proof.
  intros Hloads Hv. unfold cargo_line. rewrite Hloads. unfold cargo_value.
  destruct Hv as [Hno|[m [Hm [Tm Hno]]]].
  - destruct v; try reflexivity. now destruct (Hno d).
  - destruct v as [| | | | | |d]; try discriminate. simpl in Hm.
    rewrite !py_get_object, Hm. cbn [bind]. rewrite Tm.
    destruct m; try reflexivity. now destruct (Hno d0).
Qed.

End CargoTurn.

Lemma cargo_record_origin_witness :
  exists d msg reason span0 rest,
    json_loads_lite line_coded = Some (JObject d)
    /\ dict_get "message" d = Some (JObject msg)
    /\ dict_get "reason" d = Some reason
    /\ truthy reason = true
    /\ dict_get "spans" msg = Some (JList (JObject span0 :: rest))
    /\ dict_get "file_name" span0 = Some (filename record_coded)
    /\ dict_get "line_start" span0 = Some (line record_coded)
    /\ dict_get "column_start" span0 = Some (column record_coded)
    /\ dict_get "level" msg = Some (level record_coded).
Proof.
  apply (cargo_record_origin json_loads_lite str_of_scalar line_coded record_coded).
  vm_compute. reflexivity.
Defined.

Lemma cargo_message_label_witness :
  cargo_line json_loads_lite str_of_scalar line_mismatch = Ok (Some record_mismatch)
  /\ message record_mismatch = JString "mismatched types (expected u32)".
Proof.
  split; [vm_compute; reflexivity|].
  apply (cargo_message_label json_loads_lite str_of_scalar line_mismatch
           [("reason", JString "compiler-message");
            ("message",
             JObject
               [("message", JString "mismatched types"); ("code", JNull);
                ("level", JString "error");
                ("spans",
                 JList [JObject [("file_name", JString "src/lib.rs");
                                 ("line_start", JInt 7); ("column_start", JInt 5);
                                 ("label", JString "expected u32")]]);
                ("children",
                 JList [JObject [("message", JString "expected type `u32`");
                                 ("code", JNull); ("level", JString "note");
                                 ("spans", JList []); ("children", JList [])]])])]
           [("message", JString "mismatched types"); ("code", JNull);
            ("level", JString "error");
            ("spans",
             JList [JObject [("file_name", JString "src/lib.rs");
                             ("line_start", JInt 7); ("column_start", JInt 5);
                             ("label", JString "expected u32")]]);
            ("children",
             JList [JObject [("message", JString "expected type `u32`");
                             ("code", JNull); ("level", JString "note");
                             ("spans", JList []); ("children", JList [])]])]
           [("file_name", JString "src/lib.rs"); ("line_start", JInt 7);
            ("column_start", JInt 5); ("label", JString "expected u32")]
           [] (JString "mismatched types") record_mismatch);
    vm_compute; reflexivity.
Defined.

Lemma cargo_code_passthrough_witness :
  cargo_line json_loads_lite str_of_scalar line_coded = Ok (Some record_coded)
  /\ code record_coded = JString "E0308".
Proof.
  split; [vm_compute; reflexivity|].
  eapply (cargo_code_passthrough json_loads_lite str_of_scalar line_coded);
    vm_compute; reflexivity.
Defined.

Lemma cargo_line_skips_silently_witness :
  cargo_line json_loads_lite str_of_scalar line_artifact = Ok None.
Proof.
  eapply (cargo_line_skips_silently json_loads_lite str_of_scalar line_artifact).
  - vm_compute. reflexivity.
  - intros m H. vm_compute in H. discriminate H.
Defined.

Lemma cargo_line_attribute_error_witness :
  cargo_line json_loads_lite str_of_scalar (dq "['cargo', 1]" ++ nl)
    = Raise AttributeError
  /\ cargo_line json_loads_lite str_of_scalar
       (dq "{'reason':'compiler-message','message':'done'}" ++ nl)
     = Raise AttributeError.
Proof.
  split.
  - eapply (cargo_line_attribute_error json_loads_lite str_of_scalar).
    + vm_compute. reflexivity.
    + left. discriminate.
  - eapply (cargo_line_attribute_error json_loads_lite str_of_scalar).
    + vm_compute. reflexivity.
    + right. exists (JString "done").
      split; [reflexivity|]. split; [reflexivity | discriminate].
Defined.

(* ===================================================================== *)
(** ** Further facts: the read loop and the scripts *)

Lemma lines_of_shape (pipe : string) : Forall line_shape (lines_of pipe).
Proof.
  induction pipe as [|c pipe IH]; [constructor|].
  cbn [lines_of]. destruct (Ascii.eqb c newline) eqn:Ec.
  - apply Ascii.eqb_eq in Ec. subst c. constructor; [|exact IH].
    exists "". split; [reflexivity | left; reflexivity].
  - assert (Hc : not_newline c = true) by (unfold not_newline, not_char; now rewrite Ec).
    destruct (lines_of pipe) as [|l ls].
    + constructor; [|constructor].
      exists (String c ""). split; [simpl; now rewrite Hc|].
      right. split; [reflexivity | discriminate].
    + inversion IH as [|? ? [text [Ht Hl]] Hls]; subst.
      constructor; [|exact Hls].
      exists (String c text). split; [simpl; now rewrite Hc, Ht|].
      destruct Hl as [->|[-> _]]; [left; reflexivity|].
      right. split; [reflexivity | discriminate].
Qed.

Lemma records_of_echo (ls : list string) :
  records_of (fun l => Ok (Some l)) ls = ls.
Proof. induction ls as [|l ls IH]; simpl; [reflexivity | now rewrite IH]. Qed.

(** X11: the turns of the read loop get the whole output of the child, cut
    after each line feed: with a body that prints the line it gets, the loop
    ends at the end of the pipe having printed lines that put end to end
    are the output, each one text without a line feed closed by a line
    feed, or not empty at the end of an output that has no last line
    feed. *)
Theorem read_loop_hands_out_lines (pipe : string) :
  exists ls,
    read_loop (fun l => Ok (Some l)) (S (String.length pipe)) pipe [] = Some (ls, Ok tt)
    /\ String.concat "" ls = pipe
    /\ Forall line_shape ls.
Proof.
  exists (lines_of pipe). split.
  - rewrite read_loop_lines by lia.
    rewrite run_lines_ok by (intros; now eexists).
    now rewrite records_of_echo.
  - split; [apply lines_of_concat | apply lines_of_shape].
Qed.

Section ScriptRuns.

Variable json_loads : string -> option json.
Variable py_str : json -> string.
Variable popen : list string -> result child.

(** X10: an error raised in a turn of the structural adapter, whatever it is,
    ends the script: the records of the lines before are printed, no later
    line is read, and the exit status is 1 whatever the child returns. *)
Theorem cargo_main_aborts_on_error (c : child) (pre post : list string)
    (ln : string) (e : exn) :
  popen cargo_command = Ok c ->
  lines_of (stdout c) = (pre ++ ln :: post)%list ->
  (forall l, In l pre -> exists o, cargo_line json_loads py_str l = Ok o) ->
  cargo_line json_loads py_str ln = Raise e ->
  cargo_main json_loads py_str popen
    = Some (records_of (cargo_line json_loads py_str) pre, Uncaught e)
  /\ exit_status (Uncaught e) = 1%Z.
Proof.
  intros Hc Hlines Hpre Hraise. split; [|reflexivity].
  rewrite (cargo_main_started json_loads py_str popen c Hc), Hlines.
  now rewrite (run_lines_raise _ pre post ln e [] Hpre Hraise).
Qed.

End ScriptRuns.

Lemma cargo_main_aborts_on_error_witness :
  cargo_main json_loads_lite str_of_scalar
    (popen_always (mkChild (line_coded ++ line_bare ++ line_warning) 0))
  = Some ([record_coded], Uncaught KeyError)
  /\ exit_status (Uncaught KeyError) = 1%Z.
Proof.
  destruct (cargo_main_aborts_on_error json_loads_lite str_of_scalar
              (popen_always (mkChild (line_coded ++ line_bare ++ line_warning) 0))
              (mkChild (line_coded ++ line_bare ++ line_warning) 0)
              [line_coded] [line_warning] line_bare KeyError)
    as [Hmain Hst].
  - reflexivity.
  - vm_compute. reflexivity.
  - intros l [<-|[]]. eexists. vm_compute. reflexivity.
  - vm_compute. reflexivity.
  - split; [|exact Hst]. rewrite Hmain. vm_compute. reflexivity.
Defined.

